(** * LintIQ frontend: HTTP client wrapper, session context and dashboard handlers

    A shallow embedding of [frontend/src/lib/api.js], of the authentication
    context ([contexts/AuthContext]) and of the event handlers of
    [components/Dashboard.jsx], followed by the properties the specification
    states about them.

    JavaScript values are a tree type [JsVal]; the browser (local storage,
    location, the requests put on the wire, alerts, console) and the React
    state of the two components form one record [World]; every function of the
    source is a computation in a state-and-exception monad over [World].  The
    backend is an arbitrary function from the requests seen so far and the
    current request to a reply. *)

From Stdlib Require Import Ascii.
From stdpp Require Import gmap strings list fin_maps pretty.

Set Warnings "-register-all,-automation".

Open Scope string_scope.
Open Scope Z_scope.

(** ** JavaScript values *)

(** Numbers are the integer-valued ones (status codes, credit balances,
    counters); strings are byte strings. An object is the list of its own
    properties in insertion order. *)
Inductive JsVal : Type :=
| JUndefined
| JNull
| JBool (b : bool)
| JNum (n : Z)
| JStr (s : string)
| JArr (items : list JsVal)
| JObj (fields : list (string * JsVal)).

(** [if (v)], [v ? a : b], [v || w] *)
Definition truthy (v : JsVal) : bool :=
  match v with
  | JUndefined | JNull => false
  | JBool b => b
  | JNum n => negb (n =? 0)
  | JStr s => negb (String.eqb s "")
  | JArr _ | JObj _ => true
  end.

Definition js_or (a b : JsVal) : JsVal := if truthy a then a else b.

Definition nullish (v : JsVal) : bool :=
  match v with
  | JUndefined | JNull => true
  | _ => false
  end.

Fixpoint assoc (k : string) (fields : list (string * JsVal)) : option JsVal :=
  match fields with
  | [] => None
  | (k', v) :: rest => if String.eqb k k' then Some v else assoc k rest
  end.

(** [v.k] once [v] is known not to be [null] or [undefined]. The property
    names the program reads ([success], [user], [token], [error], [is_pro],
    [credits_added], [packages]) exist on no primitive and on no array, so
    only an object can answer with something else than [undefined]. *)
Definition prop (v : JsVal) (k : string) : JsVal :=
  match v with
  | JObj fields => default JUndefined (assoc k fields)
  | _ => JUndefined
  end.

(** [v?.k] *)
Definition opt_get (v : JsVal) (k : string) : JsVal :=
  if nullish v then JUndefined else prop v k.

(** ** Conversions to strings *)

Fixpoint join (sep : string) (parts : list string) : string :=
  match parts with
  | [] => ""
  | [p] => p
  | p :: rest => p +:+ sep +:+ join sep rest
  end.

(** [String(v)], which is what a template literal and
    [localStorage.setItem] apply to a value. *)
Fixpoint to_string (v : JsVal) : string :=
  match v with
  | JUndefined => "undefined"
  | JNull => "null"
  | JBool true => "true"
  | JBool false => "false"
  | JNum n => pretty n
  | JStr s => s
  | JArr items =>
      join "," (map (fun x => if nullish x then "" else to_string x) items)
  | JObj _ => "[object Object]"
  end.

Definition dquote : string := String (ascii_of_nat 34) EmptyString.
Definition backslash : string := String (ascii_of_nat 92) EmptyString.

Definition hex_digit (n : N) : ascii :=
  if (n <? 10)%N then ascii_of_N (48 + n) else ascii_of_N (87 + n).

Definition escape_char (c : ascii) : string :=
  let n := N_of_ascii c in
  if (n =? 34)%N then backslash +:+ dquote
  else if (n =? 92)%N then backslash +:+ backslash
  else if (n =? 8)%N then backslash +:+ "b"
  else if (n =? 9)%N then backslash +:+ "t"
  else if (n =? 10)%N then backslash +:+ "n"
  else if (n =? 12)%N then backslash +:+ "f"
  else if (n =? 13)%N then backslash +:+ "r"
  else if (n <? 32)%N then
    backslash +:+ "u00" +:+
    String (hex_digit (n / 16)) (String (hex_digit (n mod 16)) EmptyString)
  else String c EmptyString.

Fixpoint escape (s : string) : string :=
  match s with
  | EmptyString => EmptyString
  | String c rest => escape_char c +:+ escape rest
  end.

Definition quote (s : string) : string := dquote +:+ escape s +:+ dquote.

(** [JSON.stringify(v)]: [None] is the [undefined] it returns for
    [undefined]. Inside an array [undefined] prints as [null]; a property
    whose value is [undefined] is left out. *)
Fixpoint JSON_stringify (v : JsVal) : option string :=
  match v with
  | JUndefined => None
  | JNull => Some "null"
  | JBool true => Some "true"
  | JBool false => Some "false"
  | JNum n => Some (pretty n)
  | JStr s => Some (quote s)
  | JArr items =>
      Some ("[" +:+ join "," (map (fun x => default "null" (JSON_stringify x)) items) +:+ "]")
  | JObj fields =>
      Some ("{" +:+
            join "," (omap (fun kv => match JSON_stringify (snd kv) with
                                      | Some s => Some (quote (fst kv) +:+ ":" +:+ s)
                                      | None => None
                                      end) fields) +:+ "}")
  end.

(** ** Outcomes, exceptions and the world *)

Record Response := mkResponse { status : Z; data : JsVal }.

(** What a [catch] clause of the program can receive: the error axios
    rejects with (its [response] is missing when nothing came back), the
    [TypeError] of a property read on [null] or [undefined], and the
    [SyntaxError] of [JSON.parse]. *)
Inductive Exn : Type :=
| AxiosError (response : option Response)
| TypeError
| SyntaxError.

Inductive Res (A : Type) : Type :=
| Ok (a : A)
| Throw (e : Exn).
Arguments Ok {A} a.
Arguments Throw {A} e.

Inductive Method := GET | POST | PUT.

Record File := mkFile { file_name : string; file_size : Z }.

Inductive FormEntry :=
| FileEntry (f : File)
| TextEntry (s : string).

Inductive Body :=
| NoBody
| JsonBody (v : JsVal)
| FormData (entries : list (string * FormEntry)).

Record Request := mkRequest {
  req_method : Method;
  req_url : string;
  req_headers : gmap string string;
  req_body : Body;
  req_timeout : Z
}.

(** What the backend (or the network) answers to a request. *)
Inductive Reply :=
| NetworkError
| HttpReply (st : Z) (d : JsVal).

(** State of [AuthProvider]. *)
Record AuthState := mkAuthState {
  user : JsVal;
  loading : bool;
  isAuthenticated : bool
}.

(** State of [Dashboard]. *)
Record DashState := mkDashState {
  files : list File;
  analyzing : bool;
  analysisResult : JsVal;
  error : JsVal;
  creditPackages : JsVal;
  loadingPackages : bool
}.

Record World := mkWorld {
  localStorage : gmap string string;
  location_href : string;
  sent : list Request;
  alerts : list string;
  console : list string;
  auth_state : AuthState;
  dash_state : DashState
}.

Definition M (A : Type) : Type := World -> Res A * World.

Definition ret {A} (a : A) : M A := fun w => (Ok a, w).

Definition throw {A} (e : Exn) : M A := fun w => (Throw e, w).

Definition bind {A B} (m : M A) (k : A -> M B) : M B :=
  fun w =>
    match m w with
    | (Ok a, w') => k a w'
    | (Throw e, w') => (Throw e, w')
    end.

Notation "x <- m ;; k" := (bind m (fun x => k))
  (at level 100, m at next level, right associativity).
Notation "m ;;; k" := (bind m (fun _ => k))
  (at level 100, right associativity).

Definition lift {A} (r : Res A) : M A := fun w => (r, w).

Definition modify (f : World -> World) : M unit := fun w => (Ok tt, f w).

Definition gets {A} (f : World -> A) : M A := fun w => (Ok (f w), w).

(** [try { body } catch (e) { handler(e) } finally { fin }]: the value (or
    the exception) of the [try]/[catch] part is the statement's, unless
    [fin] itself throws. *)
Definition try_catch_finally {A} (body : M A) (handler : Exn -> M A) (fin : M unit) : M A :=
  fun w =>
    let '(r, w1) :=
      match body w with
      | (Ok a, w') => (Ok a, w')
      | (Throw e, w') => handler e w'
      end in
    match fin w1 with
    | (Ok _, w2) => (r, w2)
    | (Throw e, w2) => (Throw e, w2)
    end.

Definition try_catch {A} (body : M A) (handler : Exn -> M A) : M A :=
  try_catch_finally body handler (ret tt).

(** ** Field updates of the world *)

Definition with_localStorage (f : gmap string string -> gmap string string) (w : World) : World :=
  mkWorld (f (localStorage w)) (location_href w) (sent w) (alerts w) (console w)
          (auth_state w) (dash_state w).

Definition with_location_href (h : string) (w : World) : World :=
  mkWorld (localStorage w) h (sent w) (alerts w) (console w) (auth_state w) (dash_state w).

Definition with_sent (f : list Request -> list Request) (w : World) : World :=
  mkWorld (localStorage w) (location_href w) (f (sent w)) (alerts w) (console w)
          (auth_state w) (dash_state w).

Definition with_alerts (f : list string -> list string) (w : World) : World :=
  mkWorld (localStorage w) (location_href w) (sent w) (f (alerts w)) (console w)
          (auth_state w) (dash_state w).

Definition with_console (f : list string -> list string) (w : World) : World :=
  mkWorld (localStorage w) (location_href w) (sent w) (alerts w) (f (console w))
          (auth_state w) (dash_state w).

Definition with_auth (f : AuthState -> AuthState) (w : World) : World :=
  mkWorld (localStorage w) (location_href w) (sent w) (alerts w) (console w)
          (f (auth_state w)) (dash_state w).

Definition with_dash (f : DashState -> DashState) (w : World) : World :=
  mkWorld (localStorage w) (location_href w) (sent w) (alerts w) (console w)
          (auth_state w) (f (dash_state w)).

(** ** Browser primitives *)

(** Local storage is taken to be available: its three operations do not
    throw. *)

Definition localStorage_getItem (k : string) : M (option string) :=
  gets (fun w => localStorage w !! k).

Definition localStorage_setItem (k v : string) : M unit :=
  modify (with_localStorage (insert k v)).

Definition localStorage_removeItem (k : string) : M unit :=
  modify (with_localStorage (delete k)).

Definition set_location_href (h : string) : M unit :=
  modify (with_location_href h).

Definition alert (msg : string) : M unit :=
  modify (with_alerts (fun l => (l ++ [msg])%list)).

Definition console_error (msg : string) : M unit :=
  modify (with_console (fun l => (l ++ [msg])%list)).

(** [v.k], which throws on [null] and [undefined]. *)
Definition get_prop (v : JsVal) (k : string) : M JsVal :=
  if nullish v then throw TypeError else ret (prop v k).

(** [error.response?.status] *)
Definition error_status (e : Exn) : option Z :=
  match e with
  | AxiosError (Some r) => Some (status r)
  | _ => None
  end.

(** [error.response?.status === code] *)
Definition status_is (e : Exn) (code : Z) : bool :=
  match error_status e with
  | Some st => st =? code
  | None => false
  end.

(** [error.response?.data?.error] *)
Definition error_message (e : Exn) : JsVal :=
  match e with
  | AxiosError (Some r) => opt_get (data r) "error"
  | _ => JUndefined
  end.

(** ** lib/api.js *)

Definition baseURL : string := "/api".
Definition timeout : Z := 30000.
Definition default_headers : gmap string string :=
  {[ "Content-Type" := "application/json" ]}.

(** The request interceptor's first callback. *)
Definition request_fulfilled (config : Request) : M Request :=
  token <- localStorage_getItem "lintiq_token";;
  ret (match token with
       | Some t =>
           if truthy (JStr t)
           then mkRequest (req_method config) (req_url config)
                          (<["Authorization" := "Bearer " +:+ t]> (req_headers config))
                          (req_body config) (req_timeout config)
           else config
       | None => config
       end).

(** The response interceptor's callbacks. *)
Definition response_fulfilled (response : Response) : M Response := ret response.

Definition response_rejected (e : Exn) : M Response :=
  (if status_is e 401
   then (localStorage_removeItem "lintiq_token";;;
         localStorage_removeItem "lintiq_user";;;
         set_location_href "/login")
   else ret tt);;;
  throw e.

(** axios settles a reply by its status: the default [validateStatus]. *)
Definition validateStatus (st : Z) : bool := (200 <=? st) && (st <? 300).

Section Backend.

(** The backend: its answer may depend on everything sent before. *)
Variable server : list Request -> Request -> Reply.

(** [JSON.parse]: any function from strings to a value or an exception. *)
Variable JSON_parse : string -> Res JsVal.

Definition dispatch (config : Request) : M Reply :=
  fun w => (Ok (server (sent w) config), with_sent (fun l => (l ++ [config])%list) w).

(** A call on the axios instance [api]: the request interceptor, the
    wire, then the response interceptor. *)
Definition api_request (m : Method) (path : string) (body : Body)
           (headers : gmap string string) : M Response :=
  config <- request_fulfilled
              (mkRequest m (baseURL +:+ path) (headers ∪ default_headers) body timeout);;
  reply <- dispatch config;;
  match reply with
  | HttpReply st d =>
      if validateStatus st
      then response_fulfilled (mkResponse st d)
      else response_rejected (AxiosError (Some (mkResponse st d)))
  | NetworkError => response_rejected (AxiosError None)
  end.

Definition api_get (path : string) : M Response := api_request GET path NoBody ∅.
Definition api_post (path : string) (body : Body) (headers : gmap string string) : M Response :=
  api_request POST path body headers.
Definition api_put (path : string) (body : Body) : M Response := api_request PUT path body ∅.

Definition auth_register (userData : JsVal) := api_post "/auth/register" (JsonBody userData) ∅.
Definition auth_login (credentials : JsVal) := api_post "/auth/login" (JsonBody credentials) ∅.
Definition auth_demoLogin := api_post "/auth/demo" NoBody ∅.
Definition auth_verify := api_post "/auth/verify" NoBody ∅.
Definition auth_logout := api_post "/auth/logout" NoBody ∅.

Definition payments_getPackages := api_get "/payments/packages".
Definition payments_simulatePurchase (packageId : JsVal) :=
  api_post "/payments/simulate-purchase" (JsonBody (JObj [("package_id", packageId)])) ∅.

Definition analysis_analyzeFiles (formData : list (string * FormEntry)) :=
  api_post "/analysis/analyze" (FormData formData)
           {[ "Content-Type" := "multipart/form-data" ]}.
Definition analysis_demoAnalysis := api_post "/analysis/demo" NoBody ∅.

Definition setAuthToken (token : JsVal) : M unit :=
  if truthy token
  then localStorage_setItem "lintiq_token" (to_string token)
  else localStorage_removeItem "lintiq_token".

Definition getAuthToken : M (option string) := localStorage_getItem "lintiq_token".

Definition setUser (u : JsVal) : M unit :=
  if truthy u
  then localStorage_setItem "lintiq_user" (default "undefined" (JSON_stringify u))
  else localStorage_removeItem "lintiq_user".

Definition getUser : M JsVal :=
  u <- localStorage_getItem "lintiq_user";;
  match u with
  | Some s => if truthy (JStr s) then lift (JSON_parse s) else ret JNull
  | None => ret JNull
  end.

Definition clearAuth : M unit :=
  localStorage_removeItem "lintiq_token";;;
  localStorage_removeItem "lintiq_user".

(** ** contexts/AuthContext *)

Definition setUserState (u : JsVal) : M unit :=
  modify (with_auth (fun a => mkAuthState u (loading a) (isAuthenticated a))).
Definition setLoading (b : bool) : M unit :=
  modify (with_auth (fun a => mkAuthState (user a) b (isAuthenticated a))).
Definition setIsAuthenticated (b : bool) : M unit :=
  modify (with_auth (fun a => mkAuthState (user a) (loading a) b)).

Definition initializeAuth : M JsVal :=
  try_catch_finally
    (storedUser <- getUser;;
     if truthy storedUser then
       response <- auth_verify;;
       ok <- get_prop (data response) "success";;
       if truthy ok then
         u <- get_prop (data response) "user";;
         setUserState u;;;
         setIsAuthenticated true;;;
         ret JUndefined
       else
         clearAuth;;; ret JUndefined
     else ret JUndefined)
    (fun _ =>
       console_error "Auth initialization failed:";;;
       clearAuth;;;
       ret JUndefined)
    (setLoading false).

(** [login], [register] and [demoLogin] differ by the endpoint and by the
    fallback message only. *)
Definition login : JsVal -> M JsVal := fun credentials =>
  try_catch_finally
    (setLoading true;;;
     response <- auth_login credentials;;
     ok <- get_prop (data response) "success";;
     if truthy ok then
       userData <- get_prop (data response) "user";;
       token <- get_prop (data response) "token";;
       setAuthToken token;;;
       setUser userData;;;
       setUserState userData;;;
       setIsAuthenticated true;;;
       ret (JObj [("success", JBool true); ("user", userData)])
     else
       e <- get_prop (data response) "error";;
       ret (JObj [("success", JBool false); ("error", e)]))
    (fun err =>
       let errorMessage := js_or (error_message err) (JStr "Login failed") in
       ret (JObj [("success", JBool false); ("error", errorMessage)]))
    (setLoading false).

Definition register : JsVal -> M JsVal := fun userData =>
  try_catch_finally
    (setLoading true;;;
     response <- auth_register userData;;
     ok <- get_prop (data response) "success";;
     if truthy ok then
       newUser <- get_prop (data response) "user";;
       token <- get_prop (data response) "token";;
       setAuthToken token;;;
       setUser newUser;;;
       setUserState newUser;;;
       setIsAuthenticated true;;;
       ret (JObj [("success", JBool true); ("user", newUser)])
     else
       e <- get_prop (data response) "error";;
       ret (JObj [("success", JBool false); ("error", e)]))
    (fun err =>
       let errorMessage := js_or (error_message err) (JStr "Registration failed") in
       ret (JObj [("success", JBool false); ("error", errorMessage)]))
    (setLoading false).

Definition demoLogin : M JsVal :=
  try_catch_finally
    (setLoading true;;;
     response <- auth_demoLogin;;
     ok <- get_prop (data response) "success";;
     if truthy ok then
       demoUser <- get_prop (data response) "user";;
       token <- get_prop (data response) "token";;
       setAuthToken token;;;
       setUser demoUser;;;
       setUserState demoUser;;;
       setIsAuthenticated true;;;
       ret (JObj [("success", JBool true); ("user", demoUser)])
     else
       e <- get_prop (data response) "error";;
       ret (JObj [("success", JBool false); ("error", e)]))
    (fun err =>
       let errorMessage := js_or (error_message err) (JStr "Demo login failed") in
       ret (JObj [("success", JBool false); ("error", errorMessage)]))
    (setLoading false).

Definition logout : M JsVal :=
  try_catch_finally
    (_ <- auth_logout;; ret JUndefined)
    (fun _ => console_error "Logout error:";;; ret JUndefined)
    (clearAuth;;;
     setUserState JNull;;;
     setIsAuthenticated false).

Definition updateUser (updatedUser : JsVal) : M unit :=
  setUser updatedUser;;;
  setUserState updatedUser.

(** [return user] answers with the [user] of the render that created the
    callback: the state as the call starts. *)
Definition refreshUser : M JsVal :=
  current <- gets (fun w => user (auth_state w));;
  r <- try_catch
         (response <- auth_verify;;
          ok <- get_prop (data response) "success";;
          if truthy ok then
            updatedUser <- get_prop (data response) "user";;
            setUser updatedUser;;;
            setUserState updatedUser;;;
            ret (Some updatedUser)
          else ret None)
         (fun _ => console_error "Failed to refresh user:";;; ret None);;
  match r with
  | Some updatedUser => ret updatedUser
  | None => ret current
  end.

End Backend.

(** ** components/Dashboard.jsx *)

Section Dashboard.

Variable server : list Request -> Request -> Reply.

Definition setFiles (fs : list File) : M unit :=
  modify (with_dash (fun d =>
    mkDashState fs (analyzing d) (analysisResult d) (error d)
                (creditPackages d) (loadingPackages d))).
Definition setAnalyzing (b : bool) : M unit :=
  modify (with_dash (fun d =>
    mkDashState (files d) b (analysisResult d) (error d)
                (creditPackages d) (loadingPackages d))).
Definition setAnalysisResult (r : JsVal) : M unit :=
  modify (with_dash (fun d =>
    mkDashState (files d) (analyzing d) r (error d)
                (creditPackages d) (loadingPackages d))).
Definition setError (e : JsVal) : M unit :=
  modify (with_dash (fun d =>
    mkDashState (files d) (analyzing d) (analysisResult d) e
                (creditPackages d) (loadingPackages d))).
Definition setCreditPackages (p : JsVal) : M unit :=
  modify (with_dash (fun d =>
    mkDashState (files d) (analyzing d) (analysisResult d) (error d)
                p (loadingPackages d))).
Definition setLoadingPackages (b : bool) : M unit :=
  modify (with_dash (fun d =>
    mkDashState (files d) (analyzing d) (analysisResult d) (error d)
                (creditPackages d) b)).

Definition loadCreditPackages : M unit :=
  try_catch_finally
    (setLoadingPackages true;;;
     response <- payments_getPackages server;;
     ok <- get_prop (data response) "success";;
     if truthy ok then
       p <- get_prop (data response) "packages";;
       setCreditPackages p
     else ret tt)
    (fun _ => console_error "Failed to load credit packages:")
    (setLoadingPackages false).

(** [event.target.files] of the change event. *)
Definition handleFileSelect (event_target_files : list File) : M unit :=
  let selectedFiles := event_target_files in
  setFiles selectedFiles;;;
  setError (JStr "");;;
  setAnalysisResult JNull.

(** [event.dataTransfer.files] of the drop event; [preventDefault] only
    stops the browser from opening the files. *)
Definition handleDrop (event_dataTransfer_files : list File) : M unit :=
  let droppedFiles := event_dataTransfer_files in
  setFiles droppedFiles;;;
  setError (JStr "");;;
  setAnalysisResult JNull.

(** The [FormData] of [handleAnalyze]: one [files] entry per selected file,
    then [use_ai], which is [user?.is_pro ? 'true' : 'false']. *)
Definition build_formData (fs : list File) (u : JsVal) : list (string * FormEntry) :=
  (map (fun f => ("files", FileEntry f)) fs ++
   [("use_ai", TextEntry (if truthy (opt_get u "is_pro") then "true" else "false"))])%list.

Definition handleAnalyze : M unit :=
  fs <- gets (fun w => files (dash_state w));;
  u <- gets (fun w => user (auth_state w));;
  if (Z.of_nat (length fs) =? 0) then
    setError (JStr "Please select files to analyze")
  else
    setAnalyzing true;;;
    setError (JStr "");;;
    try_catch_finally
      (let formData := build_formData fs u in
       response <- analysis_analyzeFiles server formData;;
       ok <- get_prop (data response) "success";;
       if truthy ok then
         setAnalysisResult (data response);;;
         _ <- refreshUser server;;
         ret tt
       else
         e <- get_prop (data response) "error";;
         setError e)
      (fun err =>
         if status_is err 402 then
           setError (JStr "Insufficient credits. Please purchase more credits to continue.")
         else
           setError (js_or (error_message err) (JStr "Analysis failed. Please try again.")))
      (setAnalyzing false).

Definition handleDemoAnalysis : M unit :=
  setAnalyzing true;;;
  setError (JStr "");;;
  try_catch_finally
    (response <- analysis_demoAnalysis server;;
     ok <- get_prop (data response) "success";;
     if truthy ok then
       setAnalysisResult (data response)
     else
       e <- get_prop (data response) "error";;
       setError e)
    (fun _ => setError (JStr "Demo analysis failed. Please try again."))
    (setAnalyzing false).

Definition handlePurchaseCredits (packageId : JsVal) : M unit :=
  try_catch
    (response <- payments_simulatePurchase server packageId;;
     ok <- get_prop (data response) "success";;
     if truthy ok then
       _ <- refreshUser server;;
       credits_added <- get_prop (data response) "credits_added";;
       alert ("Successfully added " +:+ to_string credits_added +:+ " credits!")
     else ret tt)
    (fun _ => setError (JStr "Purchase failed. Please try again.")).

End Dashboard.

(** ** The rest of the two views *)

(** [navigate(path)] of the router: the tab's location becomes [path]. *)
Definition navigate (path : string) : M unit := set_location_href path.

(** Dashboard.jsx, [handleLogout]. *)
Definition handleLogout (server : list Request -> Request -> Reply) : M unit :=
  _ <- logout server;;
  navigate "/".


(** The [disabled] attribute of the Analyze button:
    [analyzing || files.length === 0]. *)
Definition analyze_disabled (d : DashState) : bool :=
  analyzing d || (Z.of_nat (length (files d)) =? 0).

(** [String.prototype.toLowerCase] on the letters A to Z; the other bytes
    stay. The four names [getSeverityColor] compares with hold no letter
    that a character outside ASCII lowers to, so the comparison is not
    affected. *)
Definition lower_char (c : ascii) : ascii :=
  let n := N_of_ascii c in
  if ((65 <=? n) && (n <=? 90))%N then ascii_of_N (n + 32) else c.

Fixpoint toLowerCase (s : string) : string :=
  match s with
  | EmptyString => EmptyString
  | String c rest => String (lower_char c) (toLowerCase rest)
  end.

(** [v?.toLowerCase()]: [undefined] on [null] and [undefined], the
    lowered string on a string, and a [TypeError] on anything else, which
    has no such method to call. *)
Definition opt_toLowerCase (v : JsVal) : Res JsVal :=
  match v with
  | JUndefined | JNull => Ok JUndefined
  | JStr s => Ok (JStr (toLowerCase s))
  | _ => Throw TypeError
  end.

(** Dashboard.jsx, [getSeverityColor]. *)
Definition getSeverityColor (severity : JsVal) : Res string :=
  match opt_toLowerCase severity with
  | Throw e => Throw e
  | Ok (JStr s) =>
      if String.eqb s "critical" then Ok "text-red-600 bg-red-50"
      else if String.eqb s "high" then Ok "text-orange-600 bg-orange-50"
      else if String.eqb s "medium" then Ok "text-yellow-600 bg-yellow-50"
      else if String.eqb s "low" then Ok "text-blue-600 bg-blue-50"
      else Ok "text-gray-600 bg-gray-50"
  | Ok _ => Ok "text-gray-600 bg-gray-50"
  end.

(** * Vocabulary of the statements *)

(** The request as it leaves the request interceptor in world [w]. *)
Definition outgoing (m : Method) (path : string) (body : Body)
           (headers : gmap string string) (w : World) : Request :=
  let config := mkRequest m (baseURL +:+ path) (headers ∪ default_headers) body timeout in
  match request_fulfilled config w with
  | (Ok config', _) => config'
  | (Throw _, _) => config
  end.

(** The local state a 401 leaves behind. *)
Definition forced_logout (w : World) : World :=
  with_location_href "/login"
    (with_localStorage (fun ls => delete "lintiq_user" (delete "lintiq_token" ls)) w).

Definition record_sent (config : Request) (w : World) : World :=
  with_sent (fun l => (l ++ [config])%list) w.

(** State of the two components when they mount ([useState]). *)
Definition AuthProvider_init : AuthState := mkAuthState JNull true false.
Definition Dashboard_init : DashState := mkDashState [] false JNull (JStr "") (JArr []) false.

(** A browser holding a session: both keys stored, dashboard open. *)
Definition signed_in_world : World :=
  mkWorld (<["lintiq_token" := "tok-1"]> (<["lintiq_user" := "{}"]> ∅))
          "/dashboard" [] [] []
          (mkAuthState (JObj []) false true) Dashboard_init.

(** A browser with nothing stored. *)
Definition fresh_world : World :=
  mkWorld ∅ "/" [] [] [] AuthProvider_init Dashboard_init.

Definition always (r : Reply) : list Request -> Request -> Reply := fun _ _ => r.

Definition set_error (e : JsVal) (d : DashState) : DashState :=
  mkDashState (files d) (analyzing d) (analysisResult d) e
              (creditPackages d) (loadingPackages d).

Definition select_files (fs : list File) (d : DashState) : DashState :=
  mkDashState fs (analyzing d) JNull (JStr "") (creditPackages d) (loadingPackages d).

Definition show_result (r : JsVal) (d : DashState) : DashState :=
  mkDashState (files d) false r (JStr "") (creditPackages d) (loadingPackages d).

Definition show_error (e : JsVal) (d : DashState) : DashState :=
  mkDashState (files d) false (analysisResult d) e (creditPackages d) (loadingPackages d).

Definition insufficient_credits : string :=
  "Insufficient credits. Please purchase more credits to continue.".
Definition analysis_failed : string := "Analysis failed. Please try again.".

Definition demo_request (w : World) : Request := outgoing POST "/analysis/demo" NoBody ∅ w.

Definition analyze_request (w : World) : Request :=
  outgoing POST "/analysis/analyze"
           (FormData (build_formData (files (dash_state w)) (user (auth_state w))))
           {[ "Content-Type" := "multipart/form-data" ]} w.

Definition purchase_request (packageId : JsVal) (w : World) : Request :=
  outgoing POST "/payments/simulate-purchase"
           (JsonBody (JObj [("package_id", packageId)])) ∅ w.

(** A dashboard with one file selected. *)
Definition one_file_world : World :=
  with_dash (select_files [mkFile "main.py" 120]) signed_in_world.

Definition login_request (credentials : JsVal) (w : World) : Request :=
  outgoing POST "/auth/login" (JsonBody credentials) ∅ w.
Definition register_request (userData : JsVal) (w : World) : Request :=
  outgoing POST "/auth/register" (JsonBody userData) ∅ w.
Definition demoLogin_request (w : World) : Request := outgoing POST "/auth/demo" NoBody ∅ w.
Definition verify_request (w : World) : Request := outgoing POST "/auth/verify" NoBody ∅ w.
Definition logout_request (w : World) : Request := outgoing POST "/auth/logout" NoBody ∅ w.

Definition outcome_ok (u : JsVal) : JsVal := JObj [("success", JBool true); ("user", u)].
Definition outcome_fail (e : JsVal) : JsVal := JObj [("success", JBool false); ("error", e)].

(** The backend grants a session: a 2xx reply whose body has a truthy
    [success], the token [t] (a string that is not empty) and the profile
    [u] (a truthy value, as every object is). *)
Definition grants (reply : Reply) (t : string) (u : JsVal) : Prop :=
  exists st d,
    reply = HttpReply st d /\ validateStatus st = true /\
    truthy (prop d "success") = true /\
    prop d "token" = JStr t /\ t <> "" /\
    prop d "user" = u /\ truthy u = true.

Definition session_stored (t : string) (u : JsVal) (w : World) : Prop :=
  localStorage w !! "lintiq_token" = Some t /\
  (exists s, JSON_stringify u = Some s /\ s <> "" /\
             localStorage w !! "lintiq_user" = Some s) /\
  isAuthenticated (auth_state w) = true /\
  user (auth_state w) = u.

Definition session_cleared (w : World) : Prop :=
  localStorage w !! "lintiq_token" = None /\
  localStorage w !! "lintiq_user" = None /\
  isAuthenticated (auth_state w) = false /\
  user (auth_state w) = JNull.

Definition sample_profile : JsVal :=
  JObj [("username", JStr "ada"); ("is_pro", JBool false); ("credits", JNum 5)].

Definition granting_server : list Request -> Request -> Reply :=
  always (HttpReply 200 (JObj [("success", JBool true);
                               ("token", JStr "tok-2");
                               ("user", sample_profile)])).

(** The result object of [login], [register] and [demoLogin]:
    [{success: true, user}] or [{success: false, error}]. *)
Definition is_outcome (v : JsVal) : bool :=
  match v with
  | JObj [(k1, JBool b); (k2, _)] =>
      String.eqb k1 "success" && String.eqb k2 (if b then "user" else "error")
  | _ => false
  end.

(** What [login], [register] and [demoLogin] hand back, by the reply to
    their request: the profile on a granted reply, the reply's [error] when
    the success flag is falsy, and otherwise (rejected call, unreadable
    body) the rejected response's [error] or the fallback text. *)
Definition reports_outcome (fallback : string) (reply : Reply) (r : Res JsVal) : Prop :=
  match reply with
  | HttpReply st d =>
      if validateStatus st then
        if nullish d then r = Ok (outcome_fail (JStr fallback))
        else if truthy (prop d "success") then r = Ok (outcome_ok (prop d "user"))
        else r = Ok (outcome_fail (prop d "error"))
      else r = Ok (outcome_fail (js_or (opt_get d "error") (JStr fallback)))
  | NetworkError => r = Ok (outcome_fail (JStr fallback))
  end.

(** What [refreshUser] hands back: the profile. *)
Definition refreshed (reply : Reply) (current : JsVal) : JsVal :=
  match reply with
  | HttpReply st d =>
      if validateStatus st && negb (nullish d) && truthy (prop d "success")
      then prop d "user" else current
  | NetworkError => current
  end.

Definition stop_loading (a : AuthState) : AuthState :=
  mkAuthState (user a) false (isAuthenticated a).

(** The backend does not confirm: no answer, an error status, or a body
    whose [success] is falsy or cannot be read. *)
Definition refuses (reply : Reply) : Prop :=
  match reply with
  | NetworkError => True
  | HttpReply st d => validateStatus st = false \/ truthy (prop d "success") = false
  end.

(** The stored profile snapshot reads as a truthy value [v]. *)
Definition profile_stored (JSON_parse : string -> Res JsVal) (w : World) (v : JsVal) : Prop :=
  exists s, localStorage w !! "lintiq_user" = Some s /\ s <> "" /\
            JSON_parse s = Ok v /\ truthy v = true.

Definition set_user (u : JsVal) (a : AuthState) : AuthState :=
  mkAuthState u (loading a) (isAuthenticated a).

Definition packages_request (w : World) : Request :=
  outgoing GET "/payments/packages" NoBody ∅ w.

(** The files of an upload, in the order of its entries. *)
Definition uploaded_files (entries : list (string * FormEntry)) : list File :=
  omap (fun e => match snd e with FileEntry f => Some f | TextEntry _ => None end) entries.

(** The text fields of an upload. *)
Definition text_fields (entries : list (string * FormEntry)) : list (string * string) :=
  omap (fun e => match snd e with TextEntry t => Some (fst e, t) | FileEntry _ => None end)
       entries.

(** The five class strings [getSeverityColor] can answer with. *)
Definition severity_palette : list string :=
  ["text-red-600 bg-red-50"; "text-orange-600 bg-orange-50";
   "text-yellow-600 bg-yellow-50"; "text-blue-600 bg-blue-50";
   "text-gray-600 bg-gray-50"].

Definition severity_names : list string := ["critical"; "high"; "medium"; "low"].

(** * Properties *)

(** ** The model at work *)

Example stringify_array :
  JSON_stringify (JArr [JNum (-12); JUndefined; JNull; JBool true]) = Some "[-12,null,null,true]".
Proof. reflexivity. Qed.

Example stringify_profile :
  JSON_stringify sample_profile
  = Some ("{" +:+ quote "username" +:+ ":" +:+ quote "ada" +:+ "," +:+
          quote "is_pro" +:+ ":false," +:+ quote "credits" +:+ ":5}").
Proof. reflexivity. Qed.

Example stringify_skips_undefined_properties :
  JSON_stringify (JObj [("a", JUndefined); ("b", JNum 1)]) = Some ("{" +:+ quote "b" +:+ ":1}").
Proof. reflexivity. Qed.

Example escape_control_characters :
  escape (String (ascii_of_nat 10) (String (ascii_of_nat 1) "z"))
  = backslash +:+ "n" +:+ backslash +:+ "u0001z".
Proof. reflexivity. Qed.

Example to_string_array :
  to_string (JArr [JNum 1; JNull; JStr "a"; JArr [JNum 2; JNum 3]]) = "1,,a,2,3".
Proof. reflexivity. Qed.

Example login_then_unauthorized_analysis :
  let w1 := snd (login granting_server JNull fresh_world) in
  let w2 := snd (handleFileSelect [mkFile "main.py" 120] w1) in
  let w3 := snd (handleAnalyze (always (HttpReply 401 JNull)) w2) in
  localStorage w1 !! "lintiq_token" = Some "tok-2" /\
  map req_url (sent w3) = ["/api/auth/login"; "/api/analysis/analyze"] /\
  map (fun c => req_headers c !! "Authorization") (sent w3) = [None; Some "Bearer tok-2"] /\
  localStorage w3 = ∅ /\
  location_href w3 = "/login" /\
  error (dash_state w3) = JStr analysis_failed.
Proof. vm_compute. repeat split. Qed.

Example purchase_acknowledged :
  alerts (snd (handlePurchaseCredits
                 (always (HttpReply 200 (JObj [("success", JBool true);
                                               ("credits_added", JNum 50)])))
                 (JStr "starter") signed_in_world))
  = ["Successfully added 50 credits!"].
Proof. reflexivity. Qed.

(** ** The HTTP client wrapper *)

Lemma request_fulfilled_pure config w :
  exists config', request_fulfilled config w = (Ok config', w).
Proof.
  unfold request_fulfilled, bind, localStorage_getItem, gets, ret. eauto.
Qed.

Lemma response_rejected_401 e w :
  error_status e = Some 401 -> response_rejected e w = (Throw e, forced_logout w).
Proof.
  intros H. unfold response_rejected, status_is. rewrite H. reflexivity.
Qed.

Lemma response_rejected_other e w :
  error_status e <> Some 401 -> response_rejected e w = (Throw e, w).
Proof.
  intros H. unfold response_rejected, status_is.
  destruct (error_status e) as [st|]; [|reflexivity].
  destruct (Z.eqb_spec st 401) as [->|Hne]; [congruence|reflexivity].
Qed.

Lemma forced_logout_idemp w : forced_logout (forced_logout w) = forced_logout w.
Proof.
  destruct w. unfold forced_logout, with_location_href, with_localStorage. simpl.
  f_equal. apply map_eq. intros k.
  rewrite !lookup_delete. repeat case_decide; reflexivity.
Qed.

Section WrapperFacts.

Variable server : list Request -> Request -> Reply.

Lemma api_request_unfold m path body headers w :
  api_request server m path body headers w =
  let config := outgoing m path body headers w in
  let w1 := record_sent config w in
  match server (sent w) config with
  | HttpReply st d =>
      if validateStatus st
      then (Ok (mkResponse st d), w1)
      else response_rejected (AxiosError (Some (mkResponse st d))) w1
  | NetworkError => response_rejected (AxiosError None) w1
  end.
Proof.
  unfold api_request, outgoing, bind.
  destruct (request_fulfilled_pure
              (mkRequest m (baseURL +:+ path) (headers ∪ default_headers) body timeout) w)
    as [config' ->].
  cbn. destruct (server (sent w) config') as [|st d]; [reflexivity|].
  destruct (validateStatus st); reflexivity.
Qed.

Lemma api_request_resolved m path body headers w st d :
  server (sent w) (outgoing m path body headers w) = HttpReply st d ->
  validateStatus st = true ->
  api_request server m path body headers w =
  (Ok (mkResponse st d), record_sent (outgoing m path body headers w) w).
Proof.
  intros Hr Hv. rewrite api_request_unfold. cbn zeta. rewrite Hr, Hv. reflexivity.
Qed.

Lemma api_request_rejected m path body headers w st d :
  server (sent w) (outgoing m path body headers w) = HttpReply st d ->
  validateStatus st = false ->
  api_request server m path body headers w =
  (Throw (AxiosError (Some (mkResponse st d))),
   if st =? 401
   then forced_logout (record_sent (outgoing m path body headers w) w)
   else record_sent (outgoing m path body headers w) w).
Proof.
  intros Hr Hv. rewrite api_request_unfold. cbn zeta. rewrite Hr, Hv.
  destruct (Z.eqb_spec st 401) as [->|Hne].
  - apply response_rejected_401. reflexivity.
  - apply response_rejected_other. cbn. congruence.
Qed.

Lemma api_request_network_error m path body headers w :
  server (sent w) (outgoing m path body headers w) = NetworkError ->
  api_request server m path body headers w =
  (Throw (AxiosError None), record_sent (outgoing m path body headers w) w).
Proof.
  intros Hr. rewrite api_request_unfold. cbn zeta. rewrite Hr. reflexivity.
Qed.

End WrapperFacts.

(** C1. Whatever the call, a reply with status 401 makes the wrapper delete
    both local-storage keys and point the location at the login view, and
    the caller still receives the rejection; a further 401 changes nothing
    more. A reply with any other error status is rejected to the caller with
    the stored keys and the location as they were. *)
Theorem unauthorized_clears_and_redirects
        (server : list Request -> Request -> Reply)
        (m : Method) (path : string) (body : Body) (headers : gmap string string)
        (w : World) (st : Z) (d : JsVal) :
  server (sent w) (outgoing m path body headers w) = HttpReply st d ->
  validateStatus st = false ->
  let r := api_request server m path body headers w in
  fst r = Throw (AxiosError (Some (mkResponse st d))) /\
  (st = 401 ->
     localStorage (snd r) !! "lintiq_token" = None /\
     localStorage (snd r) !! "lintiq_user" = None /\
     location_href (snd r) = "/login" /\
     forall m' path' body' headers' d',
       server (sent (snd r)) (outgoing m' path' body' headers' (snd r)) = HttpReply 401 d' ->
       let r' := api_request server m' path' body' headers' (snd r) in
       fst r' = Throw (AxiosError (Some (mkResponse 401 d'))) /\
       localStorage (snd r') = localStorage (snd r) /\
       location_href (snd r') = location_href (snd r)) /\
  (st <> 401 ->
     localStorage (snd r) = localStorage w /\
     location_href (snd r) = location_href w /\
     auth_state (snd r) = auth_state w /\
     dash_state (snd r) = dash_state w).
Proof.
  intros Hreply Herr r. subst r.
  rewrite (api_request_rejected server _ _ _ _ _ _ _ Hreply Herr).
  split; [reflexivity|]. split.
  - intros ->. cbn [snd Z.eqb Pos.eqb].
    split; [|split; [|split]].
    + cbn. rewrite lookup_delete_ne by discriminate. apply lookup_delete_eq.
    + cbn. apply lookup_delete_eq.
    + reflexivity.
    + intros m' path' body' headers' d' Hreply'.
      rewrite (api_request_rejected server _ _ _ _ _ _ _ Hreply' eq_refl).
      cbn [snd fst Z.eqb Pos.eqb]. split; [reflexivity|]. split; [|reflexivity].
      cbn. apply map_eq. intros k.
      rewrite !lookup_delete. repeat case_decide; reflexivity.
  - intros Hne. destruct (Z.eqb_spec st 401) as [?|_]; [contradiction|].
    cbn. auto.
Qed.

Lemma unauthorized_clears_and_redirects_witness :
  let r := api_request (always (HttpReply 401 JNull)) GET "/user/profile" NoBody ∅ signed_in_world in
  fst r = Throw (AxiosError (Some (mkResponse 401 JNull))) /\
  localStorage (snd r) !! "lintiq_token" = None /\
  localStorage (snd r) !! "lintiq_user" = None /\
  location_href (snd r) = "/login".
Proof.
  pose proof (unauthorized_clears_and_redirects
                (always (HttpReply 401 JNull)) GET "/user/profile" NoBody ∅
                signed_in_world 401 JNull eq_refl eq_refl) as [H1 [H2 _]].
  destruct (H2 eq_refl) as (Ha & Hb & Hc & _).
  repeat split; assumption.
Defined.

Lemma api_request_sent server m path body headers w :
  sent (snd (api_request server m path body headers w)) =
  (sent w ++ [outgoing m path body headers w])%list.
Proof.
  rewrite api_request_unfold. cbn zeta.
  destruct (server (sent w) (outgoing m path body headers w)) as [|st d].
  - reflexivity.
  - destruct (validateStatus st); [reflexivity|].
    unfold response_rejected, status_is. cbn [error_status status].
    destruct (st =? 401); reflexivity.
Qed.

Lemma outgoing_fields m path body headers w :
  let config := outgoing m path body headers w in
  req_method config = m /\ req_url config = baseURL +:+ path /\ req_body config = body /\
  (forall t, localStorage w !! "lintiq_token" = Some t -> t <> "" ->
             req_headers config !! "Authorization" = Some ("Bearer " +:+ t)) /\
  (localStorage w !! "lintiq_token" = None ->
   req_headers config = headers ∪ default_headers /\
   (headers !! "Authorization" = None -> req_headers config !! "Authorization" = None)).
Proof.
  unfold outgoing, request_fulfilled, bind, localStorage_getItem, gets, ret.
  destruct (localStorage w !! "lintiq_token") as [t|] eqn:Ht.
  - cbn [req_method req_url req_headers req_body req_timeout].
    destruct (truthy (JStr t)) eqn:Htr; cbn.
    + repeat split; try discriminate.
      intros t' [= <-] _. apply lookup_insert_eq.
    + repeat split; try discriminate.
      intros t' [= <-] Hne. exfalso. apply Hne.
      cbn in Htr. apply negb_false_iff in Htr. apply String.eqb_eq in Htr. exact Htr.
  - cbn. repeat split; try discriminate.
    intros Hnone. apply lookup_union_None. split; [exact Hnone|].
    unfold default_headers. apply lookup_singleton_ne. discriminate.
Qed.

(** C7. Every request that goes through the wrapper is put on the wire as
    the request interceptor leaves it: with [Authorization: Bearer <token>]
    when a token is stored, and with exactly the headers of the call (the
    wrapper adds none) when no token is stored. *)
Theorem bearer_credential_attached
        (server : list Request -> Request -> Reply)
        (m : Method) (path : string) (body : Body) (headers : gmap string string)
        (w : World) :
  let config := outgoing m path body headers w in
  sent (snd (api_request server m path body headers w)) = (sent w ++ [config])%list /\
  req_method config = m /\ req_url config = baseURL +:+ path /\ req_body config = body /\
  (forall t, localStorage w !! "lintiq_token" = Some t -> t <> "" ->
             req_headers config !! "Authorization" = Some ("Bearer " +:+ t)) /\
  (localStorage w !! "lintiq_token" = None ->
   req_headers config = headers ∪ default_headers /\
   (headers !! "Authorization" = None -> req_headers config !! "Authorization" = None)).
Proof.
  intros config. split; [apply api_request_sent | apply outgoing_fields].
Qed.

Lemma bearer_credential_attached_witness :
  req_headers (outgoing GET "/user/profile" NoBody ∅ signed_in_world) !! "Authorization"
  = Some "Bearer tok-1".
Proof.
  refine (proj1 (proj2 (proj2 (proj2 (proj2
           (bearer_credential_attached (always NetworkError) GET "/user/profile" NoBody ∅
                                       signed_in_world))))) "tok-1" _ _).
  - reflexivity.
  - discriminate.
Defined.

(** ** The dashboard *)

Ltac use_reply server lem Hreply Hv :=
  match goal with
  | |- context [api_request server ?m ?p ?b ?h ?w1] =>
      rewrite (lem server m p b h w1 _ _ Hreply Hv)
  end.

(** C4. With no file selected, [handleAnalyze] sends nothing and only sets
    the error message to the validation text. *)
Theorem analyze_without_files
        (server : list Request -> Request -> Reply) (w : World) :
  files (dash_state w) = [] ->
  handleAnalyze server w =
    (Ok tt, with_dash (set_error (JStr "Please select files to analyze")) w) /\
  sent (snd (handleAnalyze server w)) = sent w.
Proof.
  intros Hfiles.
  assert (Hrun : handleAnalyze server w =
                 (Ok tt, with_dash (set_error (JStr "Please select files to analyze")) w)).
  { unfold handleAnalyze, bind, gets. rewrite Hfiles. reflexivity. }
  split; [exact Hrun|]. rewrite Hrun. reflexivity.
Qed.

Lemma analyze_without_files_witness :
  error (dash_state (snd (handleAnalyze (always NetworkError) signed_in_world)))
  = JStr "Please select files to analyze" /\
  sent (snd (handleAnalyze (always NetworkError) signed_in_world)) = [].
Proof.
  destruct (analyze_without_files (always NetworkError) signed_in_world eq_refl) as [H1 H2].
  split; [rewrite H1; reflexivity | exact H2].
Defined.

(** C5. Picking files and dropping files both replace the selection and
    reset the displayed result (to [null]) and the error message (to the
    empty string), whatever the dashboard showed before. *)
Theorem selecting_files_clears_result_and_error (fs : list File) (w : World) :
  handleFileSelect fs w = (Ok tt, with_dash (select_files fs) w) /\
  handleDrop fs w = (Ok tt, with_dash (select_files fs) w) /\
  files (dash_state (with_dash (select_files fs) w)) = fs /\
  analysisResult (dash_state (with_dash (select_files fs) w)) = JNull /\
  error (dash_state (with_dash (select_files fs) w)) = JStr "" /\
  truthy (error (dash_state (with_dash (select_files fs) w))) = false.
Proof.
  repeat split.
Qed.

Lemma truthy_prop_not_nullish d k : truthy (prop d k) = true -> nullish d = false.
Proof. destruct d; cbn; congruence. Qed.

(** C8. [handleDemoAnalysis] sends its request whatever local storage
    holds, and when the backend answers with a success flag the answer is
    displayed; with no token stored the request goes out without an
    [Authorization] header. *)
Theorem demo_analysis_needs_no_credential
        (server : list Request -> Request -> Reply) (w : World) (st : Z) (d : JsVal) :
  server (sent w) (demo_request w) = HttpReply st d ->
  validateStatus st = true ->
  truthy (prop d "success") = true ->
  handleDemoAnalysis server w =
    (Ok tt, with_dash (show_result d) (record_sent (demo_request w) w)) /\
  req_method (demo_request w) = POST /\
  req_url (demo_request w) = "/api/analysis/demo" /\
  req_body (demo_request w) = NoBody /\
  (localStorage w !! "lintiq_token" = None ->
   req_headers (demo_request w) !! "Authorization" = None).
Proof.
  intros Hreply Hv Hok.
  pose proof (outgoing_fields POST "/analysis/demo" NoBody ∅ w)
    as (Hm & Hu & Hb & _ & Hnone).
  split; [|split; [exact Hm|split; [exact Hu|split; [exact Hb|]]]].
  - unfold handleDemoAnalysis, try_catch_finally, bind, analysis_demoAnalysis, api_post.
    cbn [setAnalyzing setError modify].
    use_reply server api_request_resolved Hreply Hv.
    unfold get_prop. cbn [data]. rewrite (truthy_prop_not_nullish _ _ Hok).
    cbn [ret]. rewrite Hok. reflexivity.
  - intros Hls. apply (Hnone Hls). reflexivity.
Qed.

Lemma demo_analysis_needs_no_credential_witness :
  analysisResult
    (dash_state (snd (handleDemoAnalysis
                        (always (HttpReply 200 (JObj [("success", JBool true)]))) fresh_world)))
  = JObj [("success", JBool true)] /\
  req_headers (demo_request fresh_world) !! "Authorization" = None.
Proof.
  destruct (demo_analysis_needs_no_credential
              (always (HttpReply 200 (JObj [("success", JBool true)]))) fresh_world
              200 (JObj [("success", JBool true)]) eq_refl eq_refl eq_refl)
    as (Hrun & _ & _ & _ & Hh).
  split; [rewrite Hrun; reflexivity | apply Hh; reflexivity].
Defined.

(** C6, as the code has it. A rejected analysis request with status 402
    displays the insufficient-credit message whatever the backend wrote;
    with any other error status it displays the backend's [error] field
    when that is truthy and the generic text otherwise. The
    insufficient-credit message differs from the generic text. *)
Theorem analysis_failure_message
        (server : list Request -> Request -> Reply) (w : World) (st : Z) (d : JsVal) :
  files (dash_state w) <> [] ->
  server (sent w) (analyze_request w) = HttpReply st d ->
  validateStatus st = false ->
  let shown :=
    if st =? 402 then JStr insufficient_credits
    else js_or (opt_get d "error") (JStr analysis_failed) in
  handleAnalyze server w =
    (Ok tt, with_dash (show_error shown)
              (if st =? 401
               then forced_logout (record_sent (analyze_request w) w)
               else record_sent (analyze_request w) w)) /\
  error (dash_state (snd (handleAnalyze server w))) = shown /\
  insufficient_credits <> analysis_failed.
Proof.
  intros Hfiles Hreply Herr shown.
  assert (Hrun : handleAnalyze server w =
    (Ok tt, with_dash (show_error shown)
              (if st =? 401
               then forced_logout (record_sent (analyze_request w) w)
               else record_sent (analyze_request w) w))).
  { unfold handleAnalyze, bind, gets.
    destruct (files (dash_state w)) as [|f fs] eqn:Hfs; [contradiction|].
    replace (Z.of_nat (length (f :: fs)) =? 0) with false
      by (symmetry; apply Z.eqb_neq; cbn [length]; lia).
    unfold try_catch_finally, bind, analysis_analyzeFiles, api_post.
    cbn [setAnalyzing setError modify].
    unfold analyze_request in Hreply. rewrite Hfs in Hreply.
    use_reply server api_request_rejected Hreply Herr.
    unfold status_is. cbn [error_status status error_message data].
    subst shown. unfold analyze_request. rewrite Hfs.
    destruct (st =? 402) eqn:E402; destruct (st =? 401) eqn:E401; reflexivity. }
  split; [exact Hrun|]. split; [rewrite Hrun; reflexivity|].
  discriminate.
Qed.

Lemma analysis_failure_message_witness :
  error (dash_state (snd (handleAnalyze (always (HttpReply 402 JNull)) one_file_world)))
  = JStr insufficient_credits.
Proof.
  refine (proj1 (proj2 (analysis_failure_message
                          (always (HttpReply 402 JNull)) one_file_world 402 JNull _ eq_refl eq_refl))).
  discriminate.
Defined.

(** C6 as stated fails: an analysis request rejected with status 500 whose
    body carries the same text as its [error] displays exactly the message
    that a 402 displays. *)
Lemma other_failure_can_show_insufficient_credits :
  error (dash_state (snd (handleAnalyze
           (always (HttpReply 500 (JObj [("error", JStr insufficient_credits)])))
           one_file_world)))
  = JStr insufficient_credits /\
  error (dash_state (snd (handleAnalyze (always (HttpReply 402 JNull)) one_file_world)))
  = JStr insufficient_credits.
Proof.
  split; vm_compute; reflexivity.
Qed.

(** ** What a call on the wrapper leaves alone *)

Lemma api_request_frame server m path body headers w :
  let w1 := snd (api_request server m path body headers w) in
  dash_state w1 = dash_state w /\ auth_state w1 = auth_state w /\
  alerts w1 = alerts w /\ console w1 = console w.
Proof.
  rewrite api_request_unfold. cbn zeta.
  destruct (server (sent w) (outgoing m path body headers w)) as [|st d].
  - cbn. auto.
  - destruct (validateStatus st); [cbn; auto|].
    unfold response_rejected, status_is. cbn [error_status status].
    destruct (st =? 401); cbn; auto.
Qed.

Ltac run_request server E Hf :=
  match goal with
  | |- context [api_request server ?m ?p ?b ?h ?w1] =>
      pose proof (api_request_frame server m p b h w1) as Hf;
      destruct (api_request server m p b h w1) as [[?response|?err] ?w'] eqn:E;
      cbn [snd] in Hf
  end.

(** [refreshUser] always returns, and touches neither the dashboard state
    nor the alerts. *)
Lemma refreshUser_returns server w :
  exists v w', refreshUser server w = (Ok v, w') /\
               dash_state w' = dash_state w /\ alerts w' = alerts w.
Proof.
  unfold refreshUser, try_catch, try_catch_finally, bind, gets, auth_verify, api_post.
  run_request server E Hf; destruct Hf as (Hd & _ & Ha & _).
  - unfold get_prop. destruct (nullish (data response)).
    + cbn. eauto.
    + cbn [ret]. destruct (truthy (prop (data response) "success")).
      * unfold setUser. destruct (truthy (prop (data response) "user")); cbn; eauto.
      * cbn. eauto.
  - cbn. eauto.
Qed.

(** C10, as the code has it. When the simulate-purchase call resolves with
    a body that can be read (not [null], not [undefined]): if its success
    flag is falsy the handler changes nothing but the list of requests sent,
    and in every case the error message stays as it was. When the call
    resolves with a body that is [null] or [undefined], or is rejected, the
    handler sets the purchase-failed message. *)
Theorem purchase_without_success
        (server : list Request -> Request -> Reply) (packageId : JsVal) (w : World)
        (st : Z) (d : JsVal) :
  server (sent w) (purchase_request packageId w) = HttpReply st d ->
  (validateStatus st = true -> nullish d = false -> truthy (prop d "success") = false ->
   handlePurchaseCredits server packageId w =
     (Ok tt, record_sent (purchase_request packageId w) w)) /\
  (validateStatus st = true -> nullish d = false ->
   error (dash_state (snd (handlePurchaseCredits server packageId w))) = error (dash_state w)) /\
  (validateStatus st = false \/ nullish d = true ->
   error (dash_state (snd (handlePurchaseCredits server packageId w)))
   = JStr "Purchase failed. Please try again.").
Proof.
  intros Hreply. split; [|split].
  - intros Hv Hd Hok.
    unfold handlePurchaseCredits, try_catch, try_catch_finally, bind,
      payments_simulatePurchase, api_post.
    use_reply server api_request_resolved Hreply Hv.
    unfold get_prop. cbn [data]. rewrite Hd. cbn [ret]. rewrite Hok. reflexivity.
  - intros Hv Hd.
    unfold handlePurchaseCredits, try_catch, try_catch_finally, bind,
      payments_simulatePurchase, api_post.
    use_reply server api_request_resolved Hreply Hv.
    unfold get_prop. cbn [data]. rewrite Hd. cbn [ret].
    destruct (truthy (prop d "success")); [|reflexivity].
    match goal with
    | |- context [refreshUser server ?w1] =>
        destruct (refreshUser_returns server w1) as (v & w2 & -> & Hds & _)
    end.
    cbn. rewrite Hds. reflexivity.
  - intros [Hv|Hd].
    + unfold handlePurchaseCredits, try_catch, try_catch_finally, bind,
        payments_simulatePurchase, api_post.
      use_reply server api_request_rejected Hreply Hv.
      destruct (st =? 401); reflexivity.
    + unfold handlePurchaseCredits, try_catch, try_catch_finally, bind,
        payments_simulatePurchase, api_post.
      rewrite api_request_unfold. cbn zeta.
      unfold purchase_request in Hreply. rewrite Hreply.
      destruct (validateStatus st).
      * unfold get_prop. cbn [data]. rewrite Hd. reflexivity.
      * unfold response_rejected, status_is. cbn [error_status status].
        destruct (st =? 401); reflexivity.
Qed.

Lemma purchase_without_success_witness :
  handlePurchaseCredits (always (HttpReply 200 (JObj [("success", JBool false)])))
                        (JStr "starter") signed_in_world
  = (Ok tt, record_sent (purchase_request (JStr "starter") signed_in_world) signed_in_world).
Proof.
  exact (proj1 (purchase_without_success
                  (always (HttpReply 200 (JObj [("success", JBool false)])))
                  (JStr "starter") signed_in_world 200 (JObj [("success", JBool false)])
                  eq_refl) eq_refl eq_refl eq_refl).
Defined.

(** C10 as stated fails in its last clause: the call resolves (status 200)
    with the body [null]; nothing is rejected, and the error message is set
    all the same, by the [TypeError] of reading [success] on [null]. *)
Lemma purchase_error_without_rejection :
  fst (payments_simulatePurchase (always (HttpReply 200 JNull)) (JStr "starter") signed_in_world)
  = Ok (mkResponse 200 JNull) /\
  error (dash_state signed_in_world) = JStr "" /\
  error (dash_state (snd (handlePurchaseCredits (always (HttpReply 200 JNull))
                                                (JStr "starter") signed_in_world)))
  = JStr "Purchase failed. Please try again.".
Proof.
  repeat split; vm_compute; reflexivity.
Qed.

(** ** Stored strings are not empty *)

Lemma pretty_N_go_nonempty (x : N) (s : string) : s <> "" -> pretty_N_go x s <> "".
Proof.
  revert s. induction (N.lt_wf_0 x) as [x _ IH]. intros s Hs.
  destruct (N.eq_dec x 0%N) as [->|Hx].
  - rewrite pretty_N_go_0. exact Hs.
  - rewrite pretty_N_go_step by lia.
    apply IH; [apply N.div_lt; lia | discriminate].
Qed.

Lemma pretty_Z_nonempty (n : Z) : pretty n <> "".
Proof.
  assert (Hpos : forall p : positive, pretty p <> "").
  { intros p. unfold pretty, pretty_positive, pretty, pretty_N.
    destruct (decide (N.pos p = 0%N)) as [Hp|_]; [discriminate Hp|].
    rewrite pretty_N_go_step by lia. apply pretty_N_go_nonempty. discriminate. }
  destruct n as [|p|p]; unfold pretty, pretty_Z.
  - discriminate.
  - apply Hpos.
  - discriminate.
Qed.

Lemma JSON_stringify_nonempty (v : JsVal) (s : string) :
  JSON_stringify v = Some s -> s <> "".
Proof.
  destruct v as [| |[|]|n|x|items|fields]; cbn; intros H; try discriminate;
    injection H as <-; try discriminate.
  apply pretty_Z_nonempty.
Qed.

Lemma JSON_stringify_truthy (v : JsVal) :
  truthy v = true -> exists s, JSON_stringify v = Some s /\ s <> "".
Proof.
  intros Hv.
  destruct (JSON_stringify v) as [s|] eqn:E.
  - exists s. split; [reflexivity|]. eapply JSON_stringify_nonempty; eassumption.
  - destruct v as [| |[|]|n|x|items|fields]; cbn in *; discriminate.
Qed.

Lemma truthy_JStr (s : string) : s <> "" -> truthy (JStr s) = true.
Proof.
  intros Hs. cbn. apply negb_true_iff. apply String.eqb_neq. exact Hs.
Qed.

(** ** The storage helpers *)

(** C9. After [setUser(u)] with [u] an object, [getUser()] is
    [JSON.parse(JSON.stringify(u))]; after [setUser(null)] and after
    [clearAuth()] it is [null]. *)
Theorem user_snapshot_roundtrip
        (JSON_parse : string -> Res JsVal) (fields : list (string * JsVal)) (w : World) :
  (exists s,
     JSON_stringify (JObj fields) = Some s /\
     getUser JSON_parse (snd (setUser (JObj fields) w))
     = (JSON_parse s, snd (setUser (JObj fields) w))) /\
  getUser JSON_parse (snd (setUser JNull w)) = (Ok JNull, snd (setUser JNull w)) /\
  getUser JSON_parse (snd (clearAuth w)) = (Ok JNull, snd (clearAuth w)).
Proof.
  split; [|split].
  - destruct (JSON_stringify_truthy (JObj fields) eq_refl) as (s & Hs & Hne).
    exists s. split; [exact Hs|].
    unfold setUser, getUser, bind, localStorage_getItem, gets. rewrite Hs.
    change (truthy (JObj fields)) with true.
    cbn [default localStorage_setItem modify snd with_localStorage localStorage].
    unfold id. rewrite lookup_insert_eq. rewrite (truthy_JStr s Hne). reflexivity.
  - unfold setUser, getUser, bind, localStorage_getItem, gets.
    change (truthy JNull) with false.
    cbn [localStorage_removeItem modify snd with_localStorage localStorage].
    rewrite lookup_delete_eq. reflexivity.
  - unfold clearAuth, getUser, bind, localStorage_getItem, gets.
    cbn [localStorage_removeItem modify snd with_localStorage localStorage].
    rewrite lookup_delete_eq. reflexivity.
Qed.

(** The same for every truthy value, not only objects. *)
Lemma getUser_after_setUser (JSON_parse : string -> Res JsVal) (u : JsVal) (w : World) :
  truthy u = true ->
  exists s, JSON_stringify u = Some s /\
            fst (getUser JSON_parse (snd (setUser u w))) = JSON_parse s.
Proof.
  intros Hu. destruct (JSON_stringify_truthy u Hu) as (s & Hs & Hne).
  exists s. split; [exact Hs|].
  unfold setUser, getUser, bind, localStorage_getItem, gets. rewrite Hu, Hs.
  cbn [default localStorage_setItem modify snd with_localStorage localStorage].
  unfold id. rewrite lookup_insert_eq. rewrite (truthy_JStr s Hne). reflexivity.
Qed.

(** ** The session context *)

Ltac granted server Hreply Hv Hok Htok Ht Hu :=
  unfold try_catch_finally, bind, api_post;
  cbn [setLoading modify];
  use_reply server api_request_resolved Hreply Hv;
  unfold get_prop; cbn [data];
  rewrite (truthy_prop_not_nullish _ _ Hok); cbn [ret]; rewrite Hok, Htok;
  unfold setAuthToken, setUser; rewrite (truthy_JStr _ Ht), Hu;
  destruct (JSON_stringify_truthy _ Hu) as (s & Hs & Hne); rewrite Hs;
  split; [reflexivity|];
  split; [cbn; rewrite lookup_insert_ne by discriminate; apply lookup_insert_eq|];
  split; [exists s; split; [reflexivity|]; split; [exact Hne|]; cbn; apply lookup_insert_eq|];
  split; reflexivity.

(** C2. When the backend grants a session, [login], [register] and
    [demoLogin] leave the token and the serialized profile in local storage,
    both non-empty, with the authenticated flag set; [logout] leaves both
    keys absent and the flag unset whatever the backend answers to the
    logout call. *)
Theorem session_stored_then_cleared
        (server : list Request -> Request -> Reply) (w : World) :
  (forall credentials t u,
     grants (server (sent w) (login_request credentials w)) t u ->
     fst (login server credentials w) = Ok (outcome_ok u) /\
     session_stored t u (snd (login server credentials w))) /\
  (forall userData t u,
     grants (server (sent w) (register_request userData w)) t u ->
     fst (register server userData w) = Ok (outcome_ok u) /\
     session_stored t u (snd (register server userData w))) /\
  (forall t u,
     grants (server (sent w) (demoLogin_request w)) t u ->
     fst (demoLogin server w) = Ok (outcome_ok u) /\
     session_stored t u (snd (demoLogin server w))) /\
  (fst (logout server w) = Ok JUndefined /\ session_cleared (snd (logout server w))).
Proof.
  split; [|split; [|split]].
  - intros credentials t u (st & d & Hreply & Hv & Hok & Htok & Ht & <- & Hu).
    unfold login, auth_login, session_stored.
    granted server Hreply Hv Hok Htok Ht Hu.
  - intros userData t u (st & d & Hreply & Hv & Hok & Htok & Ht & <- & Hu).
    unfold register, auth_register, session_stored.
    granted server Hreply Hv Hok Htok Ht Hu.
  - intros t u (st & d & Hreply & Hv & Hok & Htok & Ht & <- & Hu).
    unfold demoLogin, auth_demoLogin, session_stored.
    granted server Hreply Hv Hok Htok Ht Hu.
  - unfold logout, try_catch_finally, bind, auth_logout, api_post, session_cleared.
    run_request server E Hf; destruct Hf as (_ & _ & _ & _).
    + cbn. split; [reflexivity|].
      rewrite lookup_delete_ne by discriminate. rewrite !lookup_delete_eq. auto.
    + cbn. split; [reflexivity|].
      rewrite lookup_delete_ne by discriminate. rewrite !lookup_delete_eq. auto.
Qed.

Lemma session_stored_then_cleared_witness :
  session_stored "tok-2" sample_profile
                 (snd (login granting_server (JObj [("email", JStr "ada@example.org")]) fresh_world)) /\
  session_cleared (snd (logout granting_server signed_in_world)).
Proof.
  split.
  - refine (proj2 (proj1 (session_stored_then_cleared granting_server fresh_world)
                     (JObj [("email", JStr "ada@example.org")]) "tok-2" sample_profile _)).
    exists 200, (JObj [("success", JBool true); ("token", JStr "tok-2"); ("user", sample_profile)]).
    repeat split; discriminate.
  - exact (proj2 (proj2 (proj2 (proj2
             (session_stored_then_cleared granting_server signed_in_world))))).
Defined.

Lemma reports_outcome_is_outcome fallback reply r :
  reports_outcome fallback reply r -> exists v, r = Ok v /\ is_outcome v = true.
Proof.
  unfold reports_outcome. destruct reply as [|st d].
  - intros ->. eexists. split; reflexivity.
  - destruct (validateStatus st); [destruct (nullish d); [|destruct (truthy (prop d "success"))]|];
      intros ->; eexists; split; reflexivity.
Qed.

Ltac outcome_cases server reply :=
  unfold reports_outcome;
  destruct reply as [|st d] eqn:Hreply;
  [ unfold try_catch_finally, bind, api_post; cbn [setLoading modify];
    match goal with
    | |- context [api_request server ?m ?p ?b ?h ?w1] =>
        rewrite (api_request_network_error server m p b h w1 Hreply)
    end; reflexivity
  | destruct (validateStatus st) eqn:Hv;
    [ unfold try_catch_finally, bind, api_post; cbn [setLoading modify];
      use_reply server api_request_resolved Hreply Hv;
      unfold get_prop; cbn [data];
      destruct (nullish d) eqn:Hnull; [reflexivity|];
      cbn [ret]; destruct (truthy (prop d "success")); [|reflexivity];
      unfold setAuthToken, setUser;
      destruct (truthy (prop d "token")); destruct (truthy (prop d "user")); reflexivity
    | unfold try_catch_finally, bind, api_post; cbn [setLoading modify];
      use_reply server api_request_rejected Hreply Hv;
      destruct (st =? 401); reflexivity ] ].

Lemma login_reports server credentials w :
  reports_outcome "Login failed" (server (sent w) (login_request credentials w))
                  (fst (login server credentials w)).
Proof.
  unfold login, auth_login.
  outcome_cases server (server (sent w) (login_request credentials w)).
Qed.

Lemma register_reports server userData w :
  reports_outcome "Registration failed" (server (sent w) (register_request userData w))
                  (fst (register server userData w)).
Proof.
  unfold register, auth_register.
  outcome_cases server (server (sent w) (register_request userData w)).
Qed.

Lemma demoLogin_reports server w :
  reports_outcome "Demo login failed" (server (sent w) (demoLogin_request w))
                  (fst (demoLogin server w)).
Proof.
  unfold demoLogin, auth_demoLogin.
  outcome_cases server (server (sent w) (demoLogin_request w)).
Qed.

Lemma initializeAuth_returns server JSON_parse w :
  fst (initializeAuth server JSON_parse w) = Ok JUndefined.
Proof.
  unfold initializeAuth, getUser, try_catch_finally, bind, localStorage_getItem, gets,
    auth_verify, api_post.
  destruct (localStorage w !! "lintiq_user") as [s|]; [|reflexivity].
  destruct (truthy (JStr s)); [|reflexivity].
  unfold lift. destruct (JSON_parse s) as [storedUser|e]; [|reflexivity].
  destruct (truthy storedUser); [|reflexivity].
  run_request server E Hf; clear Hf; [|reflexivity].
  unfold get_prop. destruct (nullish (data response)); [reflexivity|].
  cbn [ret]. destruct (truthy (prop (data response) "success")); reflexivity.
Qed.

Lemma logout_returns server w : fst (logout server w) = Ok JUndefined.
Proof.
  unfold logout, try_catch_finally, bind, auth_logout, api_post.
  run_request server E Hf; reflexivity.
Qed.

Lemma refreshUser_result server w :
  fst (refreshUser server w)
  = Ok (refreshed (server (sent w) (verify_request w)) (user (auth_state w))).
Proof.
  unfold refreshed, refreshUser, try_catch, try_catch_finally, bind, gets, auth_verify, api_post.
  destruct (server (sent w) (verify_request w)) as [|st d] eqn:Hreply.
  - rewrite (api_request_network_error server _ _ _ _ _ Hreply). reflexivity.
  - destruct (validateStatus st) eqn:Hv.
    + rewrite (api_request_resolved server _ _ _ _ _ _ _ Hreply Hv).
      unfold get_prop. cbn [data andb negb].
      destruct (nullish d); [reflexivity|].
      cbn [ret negb]. destruct (truthy (prop d "success")); [|reflexivity].
      unfold setUser. destruct (truthy (prop d "user")); reflexivity.
    + rewrite (api_request_rejected server _ _ _ _ _ _ _ Hreply Hv).
      destruct (st =? 401); reflexivity.
Qed.

(** C3, as the code has it. None of the six operations throws. [login],
    [register] and [demoLogin] hand back a result object, whose [error] on a
    rejected call is the rejected response's [error] or else the
    operation's fallback text; [initializeAuth] and [logout] hand back
    nothing, and [refreshUser] hands back the profile. *)
Theorem session_operations_return
        (server : list Request -> Request -> Reply) (JSON_parse : string -> Res JsVal)
        (w : World) (credentials userData : JsVal) :
  fst (initializeAuth server JSON_parse w) = Ok JUndefined /\
  reports_outcome "Login failed" (server (sent w) (login_request credentials w))
                  (fst (login server credentials w)) /\
  reports_outcome "Registration failed" (server (sent w) (register_request userData w))
                  (fst (register server userData w)) /\
  reports_outcome "Demo login failed" (server (sent w) (demoLogin_request w))
                  (fst (demoLogin server w)) /\
  fst (logout server w) = Ok JUndefined /\
  fst (refreshUser server w)
  = Ok (refreshed (server (sent w) (verify_request w)) (user (auth_state w))) /\
  (exists v1 v2 v3,
     fst (login server credentials w) = Ok v1 /\ is_outcome v1 = true /\
     fst (register server userData w) = Ok v2 /\ is_outcome v2 = true /\
     fst (demoLogin server w) = Ok v3 /\ is_outcome v3 = true).
Proof.
  pose proof (login_reports server credentials w) as Hl.
  pose proof (register_reports server userData w) as Hr.
  pose proof (demoLogin_reports server w) as Hd.
  repeat (split; [first [ apply initializeAuth_returns | exact Hl | exact Hr | exact Hd
                        | apply logout_returns | apply refreshUser_result ]|]).
  destruct (reports_outcome_is_outcome _ _ _ Hl) as (v1 & H1 & O1).
  destruct (reports_outcome_is_outcome _ _ _ Hr) as (v2 & H2 & O2).
  destruct (reports_outcome_is_outcome _ _ _ Hd) as (v3 & H3 & O3).
  exists v1, v2, v3. repeat split; assumption.
Qed.

(** C3 as stated fails for the operations that report nothing: [logout]
    hands back [undefined] and [refreshUser] the profile, neither of which
    is a success/failure result. *)
Lemma logout_and_refresh_report_no_outcome :
  fst (logout granting_server signed_in_world) = Ok JUndefined /\
  is_outcome JUndefined = false /\
  fst (refreshUser granting_server signed_in_world) = Ok sample_profile /\
  is_outcome sample_profile = false.
Proof.
  repeat split; vm_compute; reflexivity.
Qed.

(** * Further properties *)

(** ** The wrapper and the storage helpers *)

(** X1. Only a 401 touches local state. A 2xx reply is handed to the caller
    as it came, a failure without response is rejected without one, and in
    both cases storage, location and the components' state stay as they
    were. *)
Theorem only_unauthorized_touches_local_state
        (server : list Request -> Request -> Reply)
        (m : Method) (path : string) (body : Body) (headers : gmap string string)
        (w : World) :
  let r := api_request server m path body headers w in
  (forall st d,
     server (sent w) (outgoing m path body headers w) = HttpReply st d ->
     validateStatus st = true ->
     fst r = Ok (mkResponse st d)) /\
  (server (sent w) (outgoing m path body headers w) = NetworkError ->
   fst r = Throw (AxiosError None)) /\
  ((forall d, server (sent w) (outgoing m path body headers w) <> HttpReply 401 d) ->
   localStorage (snd r) = localStorage w /\
   location_href (snd r) = location_href w /\
   auth_state (snd r) = auth_state w /\
   dash_state (snd r) = dash_state w).
Proof.
  intros r. subst r. rewrite api_request_unfold. cbn zeta.
  destruct (server (sent w) (outgoing m path body headers w)) as [|st d] eqn:Hreply.
  - repeat split; try discriminate; reflexivity.
  - split; [|split].
    + intros st' d' [= <- <-] Hv. rewrite Hv. reflexivity.
    + discriminate.
    + intros Hne. destruct (validateStatus st); [repeat split|].
      unfold response_rejected, status_is. cbn [error_status status].
      destruct (Z.eqb_spec st 401) as [->|_]; [destruct (Hne d); reflexivity|].
      repeat split.
Qed.

Lemma only_unauthorized_touches_local_state_witness :
  localStorage (snd (api_request (always (HttpReply 500 JNull)) GET "/user/stats" NoBody ∅
                                 signed_in_world))
  = localStorage signed_in_world.
Proof.
  refine (proj1 (proj2 (proj2 (only_unauthorized_touches_local_state
                   (always (HttpReply 500 JNull)) GET "/user/stats" NoBody ∅ signed_in_world)) _)).
  intros d. discriminate.
Defined.

(** X2. [getAuthToken] after [setAuthToken(t)] is [t] for a string that is
    not empty and [null] for every falsy value; the token and the profile
    live under separate keys, so setting one never changes the other. *)
Theorem auth_token_roundtrip (w : World) :
  (forall t, t <> "" ->
             fst (getAuthToken (snd (setAuthToken (JStr t) w))) = Ok (Some t)) /\
  (forall v, truthy v = false ->
             fst (getAuthToken (snd (setAuthToken v w))) = Ok None) /\
  (forall u, fst (getAuthToken (snd (setUser u w))) = fst (getAuthToken w)) /\
  (forall v, localStorage (snd (setAuthToken v w)) !! "lintiq_user"
             = localStorage w !! "lintiq_user").
Proof.
  unfold getAuthToken, setAuthToken, setUser, localStorage_getItem, gets.
  split; [|split; [|split]].
  - intros t Ht. rewrite (truthy_JStr t Ht). cbn. rewrite lookup_insert_eq. reflexivity.
  - intros v Hv. rewrite Hv. cbn. rewrite lookup_delete_eq. reflexivity.
  - intros u. destruct (truthy u); cbn.
    + rewrite lookup_insert_ne by discriminate. reflexivity.
    + rewrite lookup_delete_ne by discriminate. reflexivity.
  - intros v. destruct (truthy v); cbn.
    + rewrite lookup_insert_ne by discriminate. reflexivity.
    + rewrite lookup_delete_ne by discriminate. reflexivity.
Qed.

Lemma auth_token_roundtrip_witness :
  fst (getAuthToken (snd (setAuthToken (JStr "tok-9") fresh_world))) = Ok (Some "tok-9").
Proof.
  refine (proj1 (auth_token_roundtrip fresh_world) "tok-9" _). discriminate.
Defined.

(** X3. What [setAuthToken] stores is what the next request carries:
    after [setAuthToken(t)] every call through the wrapper goes out with
    [Authorization: Bearer t], and after [clearAuth()] a call that brings no
    [Authorization] header of its own goes out without one. *)
Theorem stored_token_reaches_the_wire
        (m : Method) (path : string) (body : Body) (headers : gmap string string)
        (w : World) :
  (forall t, t <> "" ->
     req_headers (outgoing m path body headers (snd (setAuthToken (JStr t) w)))
       !! "Authorization" = Some ("Bearer " +:+ t)) /\
  (headers !! "Authorization" = None ->
   req_headers (outgoing m path body headers (snd (clearAuth w))) !! "Authorization" = None).
Proof.
  split.
  - intros t Ht.
    apply (outgoing_fields m path body headers (snd (setAuthToken (JStr t) w))); [|exact Ht].
    unfold setAuthToken. rewrite (truthy_JStr t Ht). cbn. apply lookup_insert_eq.
  - intros Hh.
    apply (outgoing_fields m path body headers (snd (clearAuth w))); [|exact Hh].
    unfold clearAuth, bind. cbn. rewrite lookup_delete_ne by discriminate.
    apply lookup_delete_eq.
Qed.

Lemma stored_token_reaches_the_wire_witness :
  req_headers (outgoing GET "/analysis/history" NoBody ∅
                        (snd (setAuthToken (JStr "tok-9") fresh_world)))
    !! "Authorization" = Some "Bearer tok-9".
Proof.
  refine (proj1 (stored_token_reaches_the_wire GET "/analysis/history" NoBody ∅ fresh_world)
                "tok-9" _).
  discriminate.
Defined.

(** X4. How the headers of the request configuration are merged: a header
    the call brings wins over the instance default, a call that brings no
    [Content-Type] is configured with [application/json], and the stored
    token wins over an [Authorization] header the call brings. *)
Theorem header_precedence
        (m : Method) (path : string) (body : Body) (headers : gmap string string)
        (w : World) :
  let config := outgoing m path body headers w in
  (forall k v, k <> "Authorization" -> headers !! k = Some v ->
               req_headers config !! k = Some v) /\
  (headers !! "Content-Type" = None ->
   req_headers config !! "Content-Type" = Some "application/json") /\
  (forall t v, localStorage w !! "lintiq_token" = Some t -> t <> "" ->
               headers !! "Authorization" = Some v ->
               req_headers config !! "Authorization" = Some ("Bearer " +:+ t)).
Proof.
  intros config. subst config.
  unfold outgoing, request_fulfilled, bind, localStorage_getItem, gets, ret.
  assert (Hdefault : forall k v, headers !! k = Some v ->
                                 (headers ∪ default_headers) !! k = Some v).
  { intros k v Hk. apply lookup_union_Some_l. exact Hk. }
  assert (Hjson : headers !! "Content-Type" = None ->
                  (headers ∪ default_headers) !! "Content-Type" = Some "application/json").
  { intros Hk. rewrite lookup_union_r by exact Hk.
    unfold default_headers. apply lookup_singleton_eq. }
  destruct (localStorage w !! "lintiq_token") as [t|] eqn:Ht.
  - destruct (truthy (JStr t)) eqn:Htr; cbn [req_headers].
    + split; [|split].
      * intros k v Hk Hv. rewrite lookup_insert_ne by congruence. auto.
      * intros Hk. rewrite lookup_insert_ne by discriminate. auto.
      * intros t' v [= <-] _ _. apply lookup_insert_eq.
    + split; [|split]; auto.
      intros t' v [= <-] Hne _. exfalso. apply Hne.
      cbn in Htr. apply negb_false_iff in Htr. apply String.eqb_eq in Htr. exact Htr.
  - cbn [req_headers]. split; [|split]; auto. discriminate.
Qed.

Lemma header_precedence_witness :
  req_headers (analyze_request one_file_world) !! "Content-Type" = Some "multipart/form-data".
Proof.
  refine (proj1 (header_precedence POST "/analysis/analyze"
                   (FormData (build_formData (files (dash_state one_file_world))
                                             (user (auth_state one_file_world))))
                   {[ "Content-Type" := "multipart/form-data" ]} one_file_world)
                "Content-Type" "multipart/form-data" _ _).
  - discriminate.
  - reflexivity.
Defined.

(** X5. Clearing the session removes the two keys of the application and
    nothing else: every other key of local storage keeps its value, through
    [clearAuth] and through the wrapper's handling of a 401; clearing twice
    is clearing once. *)
Theorem clearing_spares_other_keys
        (server : list Request -> Request -> Reply)
        (m : Method) (path : string) (body : Body) (headers : gmap string string)
        (w : World) (k : string) :
  k <> "lintiq_token" -> k <> "lintiq_user" ->
  localStorage (snd (clearAuth w)) !! k = localStorage w !! k /\
  localStorage (snd (api_request server m path body headers w)) !! k = localStorage w !! k /\
  snd (clearAuth (snd (clearAuth w))) = snd (clearAuth w).
Proof.
  intros Hk1 Hk2. split; [|split].
  - unfold clearAuth, bind. cbn. rewrite !lookup_delete_ne by congruence. reflexivity.
  - rewrite api_request_unfold. cbn zeta.
    destruct (server (sent w) (outgoing m path body headers w)) as [|st d]; [reflexivity|].
    destruct (validateStatus st); [reflexivity|].
    unfold response_rejected, status_is. cbn [error_status status].
    destruct (st =? 401); [|reflexivity].
    cbn. rewrite !lookup_delete_ne by congruence. reflexivity.
  - unfold clearAuth, bind. cbn. unfold with_localStorage. cbn. f_equal.
    apply map_eq. intros j. rewrite !lookup_delete. repeat case_decide; reflexivity.
Qed.

Lemma clearing_spares_other_keys_witness :
  localStorage (snd (clearAuth (with_localStorage (insert "theme" "dark") signed_in_world)))
    !! "theme" = Some "dark".
Proof.
  refine (eq_trans (proj1 (clearing_spares_other_keys (always NetworkError) GET "/" NoBody ∅
                             (with_localStorage (insert "theme" "dark") signed_in_world)
                             "theme" _ _)) _).
  - discriminate.
  - discriminate.
  - reflexivity.
Defined.

(** ** The session context, case by case *)

(** X6. With no usable profile snapshot (the key is absent, holds the empty
    string, or reads as a falsy value), [initializeAuth] asks the backend
    nothing and changes nothing but the loading flag, even when a token is
    stored. *)
Theorem initialize_without_profile
        (server : list Request -> Request -> Reply) (JSON_parse : string -> Res JsVal)
        (w : World) :
  (localStorage w !! "lintiq_user" = None \/
   localStorage w !! "lintiq_user" = Some "" \/
   exists s v, localStorage w !! "lintiq_user" = Some s /\
               JSON_parse s = Ok v /\ truthy v = false) ->
  initializeAuth server JSON_parse w = (Ok JUndefined, with_auth stop_loading w).
Proof.
  unfold initializeAuth, getUser, try_catch_finally, bind, localStorage_getItem, gets.
  intros [H|[H|(s & v & H & Hp & Hv)]]; rewrite H.
  - reflexivity.
  - reflexivity.
  - destruct (truthy (JStr s)); [|reflexivity].
    unfold lift. rewrite Hp, Hv. reflexivity.
Qed.

Lemma initialize_without_profile_witness :
  initializeAuth (always NetworkError) (fun _ => Throw SyntaxError)
                 (with_localStorage (delete "lintiq_user") signed_in_world)
  = (Ok JUndefined,
     with_auth stop_loading (with_localStorage (delete "lintiq_user") signed_in_world)).
Proof.
  apply (initialize_without_profile (always NetworkError) (fun _ => Throw SyntaxError)
           (with_localStorage (delete "lintiq_user") signed_in_world)).
  left. reflexivity.
Defined.

(** X7. A profile snapshot that [JSON.parse] rejects is treated as a dead
    session: no request is sent, both keys are removed and the loading flag
    is reset; the user and the authenticated flag stay as they were. *)
Theorem initialize_with_corrupt_profile
        (server : list Request -> Request -> Reply) (JSON_parse : string -> Res JsVal)
        (w : World) (s : string) (e : Exn) :
  localStorage w !! "lintiq_user" = Some s -> s <> "" -> JSON_parse s = Throw e ->
  let w' := snd (initializeAuth server JSON_parse w) in
  fst (initializeAuth server JSON_parse w) = Ok JUndefined /\
  sent w' = sent w /\
  localStorage w' !! "lintiq_token" = None /\
  localStorage w' !! "lintiq_user" = None /\
  auth_state w' = stop_loading (auth_state w).
Proof.
  intros Hls Hs Hp.
  unfold initializeAuth, getUser, try_catch_finally, bind, localStorage_getItem, gets.
  rewrite Hls, (truthy_JStr s Hs). unfold lift. rewrite Hp. cbn.
  rewrite lookup_delete_ne by discriminate. rewrite !lookup_delete_eq. auto.
Qed.

Lemma initialize_with_corrupt_profile_witness :
  localStorage (snd (initializeAuth (always NetworkError) (fun _ => Throw SyntaxError)
                                    signed_in_world)) !! "lintiq_token" = None.
Proof.
  refine (proj1 (proj2 (proj2 (initialize_with_corrupt_profile
            (always NetworkError) (fun _ => Throw SyntaxError) signed_in_world
            "{}" SyntaxError _ _ _)))).
  - reflexivity.
  - discriminate.
  - reflexivity.
Defined.

(** X8. With a profile snapshot and a verify call that the backend
    confirms, [initializeAuth] sends that one request, takes the user from
    the answer and sets the authenticated flag; local storage is left as it
    was (the snapshot is not rewritten). *)
Theorem initialize_confirmed
        (server : list Request -> Request -> Reply) (JSON_parse : string -> Res JsVal)
        (w : World) (v : JsVal) (st : Z) (d : JsVal) :
  profile_stored JSON_parse w v ->
  server (sent w) (verify_request w) = HttpReply st d ->
  validateStatus st = true ->
  truthy (prop d "success") = true ->
  initializeAuth server JSON_parse w =
    (Ok JUndefined,
     with_auth (fun _ => mkAuthState (prop d "user") false true)
               (record_sent (verify_request w) w)).
Proof.
  intros (s & Hls & Hs & Hp & Hv) Hreply Hvalid Hok.
  unfold initializeAuth, getUser, try_catch_finally, bind, localStorage_getItem, gets,
    auth_verify, api_post.
  rewrite Hls, (truthy_JStr s Hs). unfold lift. rewrite Hp, Hv.
  use_reply server api_request_resolved Hreply Hvalid.
  unfold get_prop. cbn [data]. rewrite (truthy_prop_not_nullish _ _ Hok).
  cbn [ret]. rewrite Hok. reflexivity.
Qed.

Lemma initialize_confirmed_witness :
  auth_state (snd (initializeAuth granting_server (fun _ => Ok (JObj [])) signed_in_world))
  = mkAuthState sample_profile false true.
Proof.
  refine (eq_trans (f_equal (fun r => auth_state (snd r))
            (initialize_confirmed granting_server (fun _ => Ok (JObj [])) signed_in_world
               (JObj []) 200
               (JObj [("success", JBool true); ("token", JStr "tok-2"); ("user", sample_profile)])
               _ eq_refl eq_refl eq_refl)) _).
  - exists "{}". repeat split. discriminate.
  - reflexivity.
Defined.

(** X9. With a profile snapshot and a verify call that the backend does
    not confirm (no answer, an error status, a falsy or unreadable success
    flag), [initializeAuth] removes both keys and resets the loading flag;
    it never sets the authenticated flag. *)
Theorem initialize_refused
        (server : list Request -> Request -> Reply) (JSON_parse : string -> Res JsVal)
        (w : World) (v : JsVal) :
  profile_stored JSON_parse w v ->
  refuses (server (sent w) (verify_request w)) ->
  let w' := snd (initializeAuth server JSON_parse w) in
  fst (initializeAuth server JSON_parse w) = Ok JUndefined /\
  localStorage w' !! "lintiq_token" = None /\
  localStorage w' !! "lintiq_user" = None /\
  auth_state w' = stop_loading (auth_state w) /\
  sent w' = (sent w ++ [verify_request w])%list.
Proof.
  intros (s & Hls & Hs & Hp & Hv) Href.
  unfold initializeAuth, getUser, try_catch_finally, bind, localStorage_getItem, gets,
    auth_verify, api_post.
  rewrite Hls, (truthy_JStr s Hs). unfold lift. rewrite Hp, Hv.
  unfold refuses in Href.
  destruct (server (sent w) (verify_request w)) as [|st d] eqn:Hreply.
  - rewrite (api_request_network_error server _ _ _ _ _ Hreply). cbn.
    rewrite lookup_delete_ne by discriminate. rewrite !lookup_delete_eq. auto.
  - destruct (validateStatus st) eqn:Hvalid.
    + destruct Href as [Hf|Hok]; [discriminate|].
      rewrite (api_request_resolved server _ _ _ _ _ _ _ Hreply Hvalid).
      unfold get_prop. cbn [data].
      destruct (nullish d); cbn [ret]; [|rewrite Hok]; cbn;
        rewrite lookup_delete_ne by discriminate; rewrite !lookup_delete_eq; auto.
    + rewrite (api_request_rejected server _ _ _ _ _ _ _ Hreply Hvalid).
      destruct (st =? 401); cbn;
        rewrite lookup_delete_ne by discriminate; rewrite !lookup_delete_eq; auto.
Qed.

Lemma initialize_refused_witness :
  localStorage (snd (initializeAuth (always (HttpReply 500 JNull)) (fun _ => Ok (JObj []))
                                    signed_in_world)) !! "lintiq_user" = None.
Proof.
  refine (proj1 (proj2 (proj2 (initialize_refused
            (always (HttpReply 500 JNull)) (fun _ => Ok (JObj [])) signed_in_world (JObj [])
            _ _)))).
  - exists "{}". repeat split. discriminate.
  - left. reflexivity.
Defined.

Ltac split_paths :=
  repeat first
    [ reflexivity
    | match goal with
      | |- context [if nullish ?x then _ else _] => destruct (nullish x)
      | |- context [if truthy ?x then _ else _] => destruct (truthy x)
      end
    | progress cbn [ret] ].

Ltac every_path server :=
  unfold try_catch_finally, bind, api_post; cbn [setLoading modify];
  let E := fresh "E" in
  let Hf := fresh "Hf" in
  run_request server E Hf; clear Hf;
  unfold get_prop, setAuthToken, setUser; split_paths.

(** X10. The loading flag never stays set: whatever the backend answers,
    and whatever local storage holds, [login], [register], [demoLogin] and
    [initializeAuth] end with [loading] false. *)
Theorem loading_always_reset
        (server : list Request -> Request -> Reply) (JSON_parse : string -> Res JsVal)
        (w : World) (credentials userData : JsVal) :
  loading (auth_state (snd (login server credentials w))) = false /\
  loading (auth_state (snd (register server userData w))) = false /\
  loading (auth_state (snd (demoLogin server w))) = false /\
  loading (auth_state (snd (initializeAuth server JSON_parse w))) = false.
Proof.
  split; [|split; [|split]].
  - unfold login, auth_login. every_path server.
  - unfold register, auth_register. every_path server.
  - unfold demoLogin, auth_demoLogin. every_path server.
  - unfold initializeAuth, getUser, try_catch_finally, bind, localStorage_getItem, gets,
      auth_verify, api_post.
    destruct (localStorage w !! "lintiq_user") as [s|]; [|reflexivity].
    destruct (truthy (JStr s)); [|reflexivity].
    unfold lift. destruct (JSON_parse s) as [storedUser|e]; [|reflexivity].
    destruct (truthy storedUser); [|reflexivity].
    run_request server E Hf; clear Hf; unfold get_prop; split_paths.
Qed.

Ltac refused_cases server Href Hne :=
  unfold try_catch_finally, bind, api_post; cbn [setLoading modify];
  unfold refuses in Href;
  match type of Href with
  | match ?reply with _ => _ end =>
      let Hreply := fresh "Hreply" in
      destruct reply as [|st d] eqn:Hreply;
      [ match goal with
        | |- context [api_request server ?m ?p ?b ?h ?w1] =>
            rewrite (api_request_network_error server m p b h w1 Hreply)
        end; repeat split
      | destruct (validateStatus st) eqn:Hvalid;
        [ destruct Href as [Hf|Hok]; [discriminate|];
          use_reply server api_request_resolved Hreply Hvalid;
          unfold get_prop; cbn [data];
          destruct (nullish d); cbn [ret]; [|rewrite Hok]; repeat split
        | use_reply server api_request_rejected Hreply Hvalid;
          destruct (Z.eqb_spec st 401) as [->|_]; [destruct (Hne d); reflexivity|];
          repeat split ] ]
  end.

(** X11. A sign-in attempt that the backend does not confirm, for a reason
    other than a 401, costs nothing: local storage, the location, the user
    and the authenticated flag are as before, so a session that was there
    is still there. *)
Theorem refused_sign_in_keeps_session
        (server : list Request -> Request -> Reply) (w : World)
        (credentials userData : JsVal) :
  let kept (w' : World) :=
    localStorage w' = localStorage w /\ location_href w' = location_href w /\
    auth_state w' = stop_loading (auth_state w) in
  (refuses (server (sent w) (login_request credentials w)) ->
   (forall d, server (sent w) (login_request credentials w) <> HttpReply 401 d) ->
   kept (snd (login server credentials w))) /\
  (refuses (server (sent w) (register_request userData w)) ->
   (forall d, server (sent w) (register_request userData w) <> HttpReply 401 d) ->
   kept (snd (register server userData w))) /\
  (refuses (server (sent w) (demoLogin_request w)) ->
   (forall d, server (sent w) (demoLogin_request w) <> HttpReply 401 d) ->
   kept (snd (demoLogin server w))).
Proof.
  intros kept. subst kept. cbv beta. split; [|split]; intros Href Hne.
  - unfold login, auth_login. refused_cases server Href Hne.
  - unfold register, auth_register. refused_cases server Href Hne.
  - unfold demoLogin, auth_demoLogin. refused_cases server Href Hne.
Qed.

Lemma refused_sign_in_keeps_session_witness :
  localStorage (snd (login (always (HttpReply 403 JNull)) JNull signed_in_world))
  = localStorage signed_in_world.
Proof.
  refine (proj1 (proj1 (refused_sign_in_keeps_session
                          (always (HttpReply 403 JNull)) signed_in_world JNull JNull) _ _)).
  - left. reflexivity.
  - intros d. discriminate.
Defined.

(** X12. A sign-in attempt answered with 401 both reports the failure to
    its caller, with the backend's message or the fallback text, and goes
    through the wrapper's forced logout: both keys are removed and the
    location points at the login view. *)
Theorem unauthorized_sign_in
        (server : list Request -> Request -> Reply) (w : World)
        (credentials : JsVal) (d : JsVal) :
  server (sent w) (login_request credentials w) = HttpReply 401 d ->
  let r := login server credentials w in
  fst r = Ok (outcome_fail (js_or (opt_get d "error") (JStr "Login failed"))) /\
  localStorage (snd r) !! "lintiq_token" = None /\
  localStorage (snd r) !! "lintiq_user" = None /\
  location_href (snd r) = "/login" /\
  auth_state (snd r) = stop_loading (auth_state w).
Proof.
  intros Hreply r. subst r.
  unfold login, auth_login, try_catch_finally, bind, api_post. cbn [setLoading modify].
  assert (Hv : validateStatus 401 = false) by reflexivity.
  use_reply server api_request_rejected Hreply Hv.
  cbn. rewrite lookup_delete_ne by discriminate. rewrite !lookup_delete_eq.
  repeat split.
Qed.

Lemma unauthorized_sign_in_witness :
  fst (login (always (HttpReply 401 (JObj [("error", JStr "Invalid credentials")])))
             JNull fresh_world)
  = Ok (outcome_fail (JStr "Invalid credentials")).
Proof.
  exact (proj1 (unauthorized_sign_in
                  (always (HttpReply 401 (JObj [("error", JStr "Invalid credentials")])))
                  fresh_world JNull (JObj [("error", JStr "Invalid credentials")]) eq_refl)).
Defined.

(** X13. A confirmed refresh writes the profile of the answer to both
    places, the snapshot in local storage and the user of the context, and
    hands it back; the token, the authenticated flag, the location and the
    dashboard are not touched. *)
Theorem refresh_stores_profile
        (server : list Request -> Request -> Reply) (w : World) (st : Z) (d : JsVal) :
  server (sent w) (verify_request w) = HttpReply st d ->
  validateStatus st = true ->
  truthy (prop d "success") = true ->
  truthy (prop d "user") = true ->
  exists s,
    JSON_stringify (prop d "user") = Some s /\ s <> "" /\
    refreshUser server w =
      (Ok (prop d "user"),
       with_auth (set_user (prop d "user"))
         (with_localStorage (insert "lintiq_user" s) (record_sent (verify_request w) w))).
Proof.
  intros Hreply Hvalid Hok Hu.
  destruct (JSON_stringify_truthy _ Hu) as (s & Hs & Hne).
  exists s. split; [exact Hs|]. split; [exact Hne|].
  unfold refreshUser, try_catch, try_catch_finally, bind, gets, auth_verify, api_post.
  use_reply server api_request_resolved Hreply Hvalid.
  unfold get_prop. cbn [data]. rewrite (truthy_prop_not_nullish _ _ Hok).
  cbn [ret]. rewrite Hok. unfold setUser. rewrite Hu, Hs. reflexivity.
Qed.

Lemma refresh_stores_profile_witness :
  fst (refreshUser granting_server signed_in_world) = Ok sample_profile.
Proof.
  destruct (refresh_stores_profile granting_server signed_in_world 200
              (JObj [("success", JBool true); ("token", JStr "tok-2"); ("user", sample_profile)])
              eq_refl eq_refl eq_refl eq_refl) as (s & _ & _ & Hrun).
  rewrite Hrun. reflexivity.
Defined.

(** X14. A confirmed refresh whose answer carries no usable user (the
    field is missing or falsy) wipes the profile: the snapshot is removed
    from local storage and the user of the context becomes that value,
    while the token and the authenticated flag stay. *)
Theorem refresh_without_user_wipes_profile
        (server : list Request -> Request -> Reply) (w : World) (st : Z) (d : JsVal) :
  server (sent w) (verify_request w) = HttpReply st d ->
  validateStatus st = true ->
  truthy (prop d "success") = true ->
  truthy (prop d "user") = false ->
  refreshUser server w =
    (Ok (prop d "user"),
     with_auth (set_user (prop d "user"))
       (with_localStorage (delete "lintiq_user") (record_sent (verify_request w) w))).
Proof.
  intros Hreply Hvalid Hok Hu.
  unfold refreshUser, try_catch, try_catch_finally, bind, gets, auth_verify, api_post.
  use_reply server api_request_resolved Hreply Hvalid.
  unfold get_prop. cbn [data]. rewrite (truthy_prop_not_nullish _ _ Hok).
  cbn [ret]. rewrite Hok. unfold setUser. rewrite Hu. reflexivity.
Qed.

Lemma refresh_without_user_wipes_profile_witness :
  localStorage (snd (refreshUser (always (HttpReply 200 (JObj [("success", JBool true)])))
                                 signed_in_world)) !! "lintiq_user" = None /\
  isAuthenticated (auth_state (snd (refreshUser
                     (always (HttpReply 200 (JObj [("success", JBool true)])))
                     signed_in_world))) = true.
Proof.
  rewrite (refresh_without_user_wipes_profile
             (always (HttpReply 200 (JObj [("success", JBool true)]))) signed_in_world
             200 (JObj [("success", JBool true)]) eq_refl eq_refl eq_refl eq_refl).
  split; reflexivity.
Defined.

(** X15. A refresh that the backend does not confirm, for a reason other
    than a 401, hands back the user the context already holds and leaves
    local storage, the location, the context and the dashboard as they
    were. *)
Theorem refused_refresh_keeps_profile
        (server : list Request -> Request -> Reply) (w : World) :
  refuses (server (sent w) (verify_request w)) ->
  (forall d, server (sent w) (verify_request w) <> HttpReply 401 d) ->
  let r := refreshUser server w in
  fst r = Ok (user (auth_state w)) /\
  localStorage (snd r) = localStorage w /\
  location_href (snd r) = location_href w /\
  auth_state (snd r) = auth_state w /\
  dash_state (snd r) = dash_state w.
Proof.
  intros Href Hne r. subst r.
  unfold refreshUser, try_catch, try_catch_finally, bind, gets, auth_verify, api_post.
  unfold refuses in Href.
  destruct (server (sent w) (verify_request w)) as [|st d] eqn:Hreply.
  - rewrite (api_request_network_error server _ _ _ _ _ Hreply). repeat split.
  - destruct (validateStatus st) eqn:Hvalid.
    + destruct Href as [Hf|Hok]; [discriminate|].
      rewrite (api_request_resolved server _ _ _ _ _ _ _ Hreply Hvalid).
      unfold get_prop. cbn [data].
      destruct (nullish d); cbn [ret]; [|rewrite Hok]; repeat split.
    + rewrite (api_request_rejected server _ _ _ _ _ _ _ Hreply Hvalid).
      destruct (Z.eqb_spec st 401) as [->|_]; [destruct (Hne d); reflexivity|].
      repeat split.
Qed.

Lemma refused_refresh_keeps_profile_witness :
  fst (refreshUser (always NetworkError) signed_in_world) = Ok (JObj []).
Proof.
  refine (proj1 (refused_refresh_keeps_profile (always NetworkError) signed_in_world _ _)).
  - exact I.
  - intros d. discriminate.
Defined.



(** X17. [updateUser] keeps the snapshot and the context in step: for an
    object [u], [getUser()] afterwards is [JSON.parse(JSON.stringify(u))] and
    the user of the context is [u]; for [null] the snapshot is removed and
    the user is [null]. In both cases the token and the authenticated flag
    are not touched. *)
Theorem updateUser_keeps_in_step
        (JSON_parse : string -> Res JsVal) (w : World) (fields : list (string * JsVal)) :
  (exists s,
     JSON_stringify (JObj fields) = Some s /\
     fst (getUser JSON_parse (snd (updateUser (JObj fields) w))) = JSON_parse s /\
     auth_state (snd (updateUser (JObj fields) w)) = set_user (JObj fields) (auth_state w) /\
     localStorage (snd (updateUser (JObj fields) w)) !! "lintiq_token"
     = localStorage w !! "lintiq_token") /\
  fst (getUser JSON_parse (snd (updateUser JNull w))) = Ok JNull /\
  auth_state (snd (updateUser JNull w)) = set_user JNull (auth_state w) /\
  localStorage (snd (updateUser JNull w)) !! "lintiq_token" = localStorage w !! "lintiq_token".
Proof.
  split; [|split; [|split]].
  - destruct (JSON_stringify_truthy (JObj fields) eq_refl) as (s & Hs & Hne).
    exists s. split; [exact Hs|].
    unfold updateUser, setUser, getUser, bind, localStorage_getItem, gets. rewrite Hs.
    change (truthy (JObj fields)) with true.
    cbn [default from_option localStorage_setItem setUserState modify snd fst
         with_localStorage with_auth localStorage auth_state].
    unfold id. rewrite lookup_insert_eq, (truthy_JStr s Hne).
    rewrite lookup_insert_ne by discriminate. repeat split.
  - unfold updateUser, setUser, getUser, bind, localStorage_getItem, gets. cbn.
    rewrite lookup_delete_eq. reflexivity.
  - reflexivity.
  - unfold updateUser, setUser, bind. cbn. apply lookup_delete_ne. discriminate.
Qed.

(** ** The dashboard, case by case *)

Lemma refreshUser_effect server w :
  exists v w', refreshUser server w = (Ok v, w') /\
               dash_state w' = dash_state w /\ alerts w' = alerts w /\
               sent w' = (sent w ++ [verify_request w])%list.
Proof.
  unfold refreshUser, try_catch, try_catch_finally, bind, gets, auth_verify, api_post.
  pose proof (api_request_sent server POST "/auth/verify" NoBody ∅ w) as Hs.
  pose proof (api_request_frame server POST "/auth/verify" NoBody ∅ w) as (Hd & _ & Ha & _).
  destruct (api_request server POST "/auth/verify" NoBody ∅ w) as [[response|e] w1];
    cbn [snd] in Hs, Hd, Ha.
  - unfold get_prop. destruct (nullish (data response)).
    + cbn. eauto 10.
    + cbn [ret]. destruct (truthy (prop (data response) "success")).
      * unfold setUser. destruct (truthy (prop (data response) "user")); cbn; eauto 10.
      * cbn. eauto 10.
  - cbn. eauto 10.
Qed.

(** X18. A confirmed analysis is displayed and followed by one profile
    refresh: the dashboard shows the answer with no error and the spinner
    off, and exactly two requests have gone out, the upload and then the
    verify call. *)
Theorem confirmed_analysis_is_shown_then_refreshed
        (server : list Request -> Request -> Reply) (w : World) (st : Z) (d : JsVal) :
  files (dash_state w) <> [] ->
  server (sent w) (analyze_request w) = HttpReply st d ->
  validateStatus st = true ->
  truthy (prop d "success") = true ->
  let r := handleAnalyze server w in
  fst r = Ok tt /\
  dash_state (snd r) = show_result d (dash_state w) /\
  sent (snd r) = (sent w ++ [analyze_request w; verify_request w])%list /\
  alerts (snd r) = alerts w.
Proof.
  intros Hfiles Hreply Hvalid Hok r. subst r.
  unfold handleAnalyze, bind, gets.
  destruct (files (dash_state w)) as [|f fs] eqn:Hfs; [contradiction|].
  replace (Z.of_nat (length (f :: fs)) =? 0) with false
    by (symmetry; apply Z.eqb_neq; cbn [length]; lia).
  unfold try_catch_finally, bind, analysis_analyzeFiles, api_post.
  cbn [setAnalyzing setError modify].
  unfold analyze_request in Hreply. rewrite Hfs in Hreply.
  use_reply server api_request_resolved Hreply Hvalid.
  unfold get_prop. cbn [data]. rewrite (truthy_prop_not_nullish _ _ Hok).
  cbn [ret]. rewrite Hok. cbn [setAnalysisResult modify].
  match goal with
  | |- context [refreshUser server ?w1] =>
      destruct (refreshUser_effect server w1) as (v & w2 & -> & Hd & Ha & Hs)
  end.
  cbn. rewrite Hd, Hs, Ha. cbn. unfold analyze_request. rewrite Hfs.
  rewrite <- app_assoc. repeat split.
  unfold show_result. rewrite Hfs. reflexivity.
Qed.

Lemma confirmed_analysis_is_shown_then_refreshed_witness :
  map req_url (sent (snd (handleAnalyze granting_server one_file_world)))
  = ["/api/analysis/analyze"; "/api/auth/verify"].
Proof.
  refine (eq_trans (f_equal (map req_url)
            (proj1 (proj2 (proj2 (confirmed_analysis_is_shown_then_refreshed
               granting_server one_file_world 200
               (JObj [("success", JBool true); ("token", JStr "tok-2"); ("user", sample_profile)])
               _ eq_refl eq_refl eq_refl))))) _).
  - discriminate.
  - reflexivity.
Defined.

(** X19. [handleAnalyze] never throws and never leaves the spinner on:
    whatever the backend answers, it returns, the selected files are still
    selected, and when there were files to send [analyzing] ends false. *)
Theorem analyze_always_settles
        (server : list Request -> Request -> Reply) (w : World) :
  let r := handleAnalyze server w in
  fst r = Ok tt /\
  files (dash_state (snd r)) = files (dash_state w) /\
  (files (dash_state w) <> [] -> analyzing (dash_state (snd r)) = false).
Proof.
  intros r. subst r.
  unfold handleAnalyze, bind, gets.
  destruct (files (dash_state w)) as [|f fs] eqn:Hfs.
  - change (Z.of_nat (length (@nil File)) =? 0) with true.
    cbn. rewrite ?Hfs. repeat split. intros H. contradiction.
  - replace (Z.of_nat (length (f :: fs)) =? 0) with false
      by (symmetry; apply Z.eqb_neq; cbn [length]; lia).
    unfold try_catch_finally, bind, analysis_analyzeFiles, api_post.
    cbn [setAnalyzing setError modify].
    run_request server E Hf; destruct Hf as (Hd & _ & _ & _); cbn in Hd.
    + unfold get_prop. destruct (nullish (data response)).
      * cbn. rewrite ?Hd. cbn. rewrite ?Hfs. repeat split.
      * cbn [ret]. destruct (truthy (prop (data response) "success")).
        -- cbn [setAnalysisResult modify].
           match goal with
           | |- context [refreshUser server ?w1] =>
               destruct (refreshUser_effect server w1) as (v & w2 & -> & Hd2 & _ & _)
           end.
           cbn. rewrite ?Hd2. cbn. rewrite ?Hd. cbn. rewrite ?Hfs. repeat split.
        -- cbn. rewrite ?Hd. cbn. rewrite ?Hfs. repeat split.
    + destruct (status_is err 402); cbn; rewrite ?Hd; cbn; rewrite ?Hfs; repeat split.
Qed.

(** X20. The upload built by [handleAnalyze] carries every selected file
    exactly once, in the order of the selection, and one text field,
    [use_ai], which is [true] exactly when the user has a truthy [is_pro];
    with no user at all it is [false]. *)
Theorem upload_carries_the_selection (fs : list File) (u : JsVal) :
  uploaded_files (build_formData fs u) = fs /\
  text_fields (build_formData fs u)
  = [("use_ai", if truthy (opt_get u "is_pro") then "true" else "false")] /\
  length (build_formData fs u) = S (length fs) /\
  text_fields (build_formData fs JNull) = [("use_ai", "false")] /\
  text_fields (build_formData fs JUndefined) = [("use_ai", "false")].
Proof.
  unfold build_formData, uploaded_files, text_fields.
  assert (Hfiles : forall l : list File,
            omap (fun e : string * FormEntry =>
                    match snd e with FileEntry f => Some f | TextEntry _ => None end)
                 (map (fun f => ("files", FileEntry f)) l) = l).
  { induction l as [|f l IH]; [reflexivity|]. cbn. rewrite IH. reflexivity. }
  assert (Htexts : forall l : list File,
            omap (fun e : string * FormEntry =>
                    match snd e with TextEntry t => Some (fst e, t) | FileEntry _ => None end)
                 (map (fun f => ("files", FileEntry f)) l) = []).
  { induction l as [|f l IH]; [reflexivity|]. cbn. exact IH. }
  rewrite !omap_app, Hfiles, !Htexts. cbn. rewrite app_nil_r.
  repeat split. rewrite length_app, length_map. cbn. lia.
Qed.

Lemma analyze_always_settles_witness :
  analyzing (dash_state (snd (handleAnalyze (always NetworkError) one_file_world))) = false.
Proof.
  refine (proj2 (proj2 (analyze_always_settles (always NetworkError) one_file_world)) _).
  discriminate.
Defined.

(** X21. An analysis that is not confirmed keeps what was on display: the
    previous result is still there beside the new error, no profile refresh
    is made (one request only), and the context is not touched. *)
Theorem failed_analysis_keeps_previous_result
        (server : list Request -> Request -> Reply) (w : World) :
  files (dash_state w) <> [] ->
  refuses (server (sent w) (analyze_request w)) ->
  let r := handleAnalyze server w in
  analysisResult (dash_state (snd r)) = analysisResult (dash_state w) /\
  sent (snd r) = (sent w ++ [analyze_request w])%list /\
  auth_state (snd r) = auth_state w /\
  alerts (snd r) = alerts w.
Proof.
  intros Hfiles Href r. subst r.
  unfold handleAnalyze, bind, gets.
  unfold analyze_request in *.
  destruct (files (dash_state w)) as [|f fs] eqn:Hfs; [contradiction|].
  replace (Z.of_nat (length (f :: fs)) =? 0) with false
    by (symmetry; apply Z.eqb_neq; cbn [length]; lia).
  unfold try_catch_finally, bind, analysis_analyzeFiles, api_post.
  cbn [setAnalyzing setError modify].
  unfold refuses in Href.
  destruct (server (sent w)
              (outgoing POST "/analysis/analyze"
                 (FormData (build_formData (f :: fs) (user (auth_state w))))
                 {[ "Content-Type" := "multipart/form-data" ]} w)) as [|st d] eqn:Hreply.
  - match goal with
    | |- context [api_request server ?m ?p ?b ?h ?w1] =>
        rewrite (api_request_network_error server m p b h w1 Hreply)
    end. repeat split.
  - destruct (validateStatus st) eqn:Hvalid.
    + destruct Href as [Hf|Hok]; [discriminate|].
      use_reply server api_request_resolved Hreply Hvalid.
      unfold get_prop. cbn [data].
      destruct (nullish d); cbn [ret]; [|rewrite Hok]; repeat split.
    + use_reply server api_request_rejected Hreply Hvalid.
      unfold status_is. cbn [error_status status].
      destruct (st =? 402); destruct (st =? 401); repeat split.
Qed.

Lemma failed_analysis_keeps_previous_result_witness :
  analysisResult
    (dash_state (snd (handleAnalyze (always (HttpReply 500 JNull))
                        (with_dash (show_result (JObj [("total_issues", JNum 3)]))
                                   one_file_world))))
  = JObj [("total_issues", JNum 3)].
Proof.
  refine (proj1 (failed_analysis_keeps_previous_result
                   (always (HttpReply 500 JNull))
                   (with_dash (show_result (JObj [("total_issues", JNum 3)])) one_file_world)
                   _ _)).
  - discriminate.
  - left. reflexivity.
Defined.

(** X22. The demo analysis has one failure message. Whenever its call is
    rejected (any status, 402 included, whatever the body says), gets no
    answer, or resolves with a body that cannot be read, the error shown is
    the fixed demo text; the backend's own message is shown only for a
    readable body with a falsy success flag. *)
Theorem demo_analysis_failure_message
        (server : list Request -> Request -> Reply) (w : World) :
  let shown := error (dash_state (snd (handleDemoAnalysis server w))) in
  (server (sent w) (demo_request w) = NetworkError ->
   shown = JStr "Demo analysis failed. Please try again.") /\
  (forall st d, server (sent w) (demo_request w) = HttpReply st d ->
                validateStatus st = false \/ nullish d = true ->
                shown = JStr "Demo analysis failed. Please try again.") /\
  (forall st d, server (sent w) (demo_request w) = HttpReply st d ->
                validateStatus st = true -> nullish d = false ->
                truthy (prop d "success") = false ->
                shown = prop d "error").
Proof.
  intros shown. subst shown.
  unfold handleDemoAnalysis, try_catch_finally, bind, analysis_demoAnalysis, api_post.
  cbn [setAnalyzing setError modify].
  split; [|split].
  - intros Hreply.
    match goal with
    | |- context [api_request server ?m ?p ?b ?h ?w1] =>
        rewrite (api_request_network_error server m p b h w1 Hreply)
    end. reflexivity.
  - intros st d Hreply Hcase.
    destruct (validateStatus st) eqn:Hvalid.
    + destruct Hcase as [Hf|Hnull]; [discriminate|].
      use_reply server api_request_resolved Hreply Hvalid.
      unfold get_prop. cbn [data]. rewrite Hnull. reflexivity.
    + use_reply server api_request_rejected Hreply Hvalid.
      destruct (st =? 401); reflexivity.
  - intros st d Hreply Hvalid Hnull Hok.
    use_reply server api_request_resolved Hreply Hvalid.
    unfold get_prop. cbn [data]. rewrite Hnull. cbn [ret]. rewrite Hok. reflexivity.
Qed.

Lemma demo_analysis_failure_message_witness :
  error (dash_state (snd (handleDemoAnalysis
           (always (HttpReply 402 (JObj [("error", JStr "Insufficient credits")])))
           fresh_world)))
  = JStr "Demo analysis failed. Please try again.".
Proof.
  refine (proj1 (proj2 (demo_analysis_failure_message
            (always (HttpReply 402 (JObj [("error", JStr "Insufficient credits")])))
            fresh_world)) 402 (JObj [("error", JStr "Insufficient credits")]) eq_refl _).
  left. reflexivity.
Defined.

(** X23. The demo analysis is one request and nothing else: whatever the
    backend answers, [handleDemoAnalysis] returns, has sent exactly its one
    request (no profile refresh follows), leaves the selected files and the
    context alone and ends with the spinner off. *)
Theorem demo_analysis_is_one_request
        (server : list Request -> Request -> Reply) (w : World) :
  let r := handleDemoAnalysis server w in
  fst r = Ok tt /\
  sent (snd r) = (sent w ++ [demo_request w])%list /\
  files (dash_state (snd r)) = files (dash_state w) /\
  analyzing (dash_state (snd r)) = false /\
  auth_state (snd r) = auth_state w.
Proof.
  intros r. subst r.
  unfold handleDemoAnalysis, try_catch_finally, bind, analysis_demoAnalysis, api_post.
  cbn [setAnalyzing setError modify].
  match goal with
  | |- context [api_request server ?m ?p ?b ?h ?w1] =>
      pose proof (api_request_sent server m p b h w1) as Hs;
      pose proof (api_request_frame server m p b h w1) as (Hd & Ha & _ & _);
      destruct (api_request server m p b h w1) as [[response|err] w'];
      cbn [snd] in Hs, Hd, Ha
  end.
  - unfold get_prop. destruct (nullish (data response)).
    + cbn. rewrite Hs, Hd, Ha. repeat split.
    + cbn [ret]. destruct (truthy (prop (data response) "success"));
        cbn; rewrite Hs, Hd, Ha; repeat split.
  - cbn. rewrite Hs, Hd, Ha. repeat split.
Qed.



(** X25. A purchase that is not confirmed is never acknowledged and never
    followed by a refresh: no alert is shown and the purchase request is the
    only one sent; the handler itself never throws. *)
Theorem refused_purchase_is_silent
        (server : list Request -> Request -> Reply) (packageId : JsVal) (w : World) :
  refuses (server (sent w) (purchase_request packageId w)) ->
  let r := handlePurchaseCredits server packageId w in
  fst r = Ok tt /\
  alerts (snd r) = alerts w /\
  sent (snd r) = (sent w ++ [purchase_request packageId w])%list /\
  auth_state (snd r) = auth_state w.
Proof.
  intros Href r. subst r.
  unfold handlePurchaseCredits, try_catch, try_catch_finally, bind,
    payments_simulatePurchase, api_post.
  unfold refuses, purchase_request in *.
  destruct (server (sent w)
              (outgoing POST "/payments/simulate-purchase"
                 (JsonBody (JObj [("package_id", packageId)])) ∅ w)) as [|st d] eqn:Hreply.
  - rewrite (api_request_network_error server _ _ _ _ _ Hreply). repeat split.
  - destruct (validateStatus st) eqn:Hvalid.
    + destruct Href as [Hf|Hok]; [discriminate|].
      rewrite (api_request_resolved server _ _ _ _ _ _ _ Hreply Hvalid).
      unfold get_prop. cbn [data].
      destruct (nullish d); cbn [ret]; [|rewrite Hok]; repeat split.
    + rewrite (api_request_rejected server _ _ _ _ _ _ _ Hreply Hvalid).
      destruct (st =? 401); repeat split.
Qed.

Lemma refused_purchase_is_silent_witness :
  alerts (snd (handlePurchaseCredits (always (HttpReply 402 JNull)) (JStr "starter")
                                     signed_in_world)) = [].
Proof.
  refine (proj1 (proj2 (refused_purchase_is_silent (always (HttpReply 402 JNull))
                          (JStr "starter") signed_in_world _))).
  left. reflexivity.
Defined.

(** X26. Loading the credit packages fails silently: [loadCreditPackages]
    never throws and never sets the error message, it always ends with
    [loadingPackages] false, and it replaces the package list only when the
    backend confirms, keeping the list it had otherwise. *)
Theorem credit_packages_load_silently
        (server : list Request -> Request -> Reply) (w : World) :
  let r := loadCreditPackages server w in
  fst r = Ok tt /\
  error (dash_state (snd r)) = error (dash_state w) /\
  loadingPackages (dash_state (snd r)) = false /\
  (forall st d, server (sent w) (packages_request w) = HttpReply st d ->
                validateStatus st = true -> truthy (prop d "success") = true ->
                creditPackages (dash_state (snd r)) = prop d "packages") /\
  (refuses (server (sent w) (packages_request w)) ->
   creditPackages (dash_state (snd r)) = creditPackages (dash_state w)).
Proof.
  intros r. subst r.
  unfold loadCreditPackages, try_catch_finally, bind, payments_getPackages, api_get.
  cbn [setLoadingPackages modify].
  unfold refuses, packages_request.
  match goal with
  | |- context [api_request server ?m ?p ?b ?h ?w1] =>
      change (server (sent w) (outgoing m p b h w))
        with (server (sent w1) (outgoing m p b h w1));
      rewrite (api_request_unfold server m p b h w1); cbn zeta;
      destruct (server (sent w1) (outgoing m p b h w1)) as [|st d]
  end.
  - cbn. repeat split. discriminate.
  - destruct (validateStatus st) eqn:Hvalid.
    + unfold get_prop. cbn [data]. destruct (nullish d) eqn:Hnull.
      * cbn. repeat split.
        intros st' d' [= <- <-] _ Hok.
        rewrite (truthy_prop_not_nullish _ _ Hok) in Hnull. discriminate.
      * cbn [ret]. destruct (truthy (prop d "success")) eqn:Hok; cbn; repeat split.
        -- intros st' d' [= <- <-] _ _. reflexivity.
        -- intros [Hf|Hf]; discriminate.
        -- intros st' d' [= <- <-] _ Hok'. congruence.
    + unfold response_rejected, status_is. cbn [error_status status].
      destruct (st =? 401); cbn; repeat split; intros st' d' [= <- <-] Hv'; congruence.
Qed.

Lemma credit_packages_load_silently_witness :
  creditPackages (dash_state (snd (loadCreditPackages
     (always (HttpReply 200 (JObj [("success", JBool true);
                                   ("packages", JArr [JObj [("id", JStr "starter")]])])))
     signed_in_world)))
  = JArr [JObj [("id", JStr "starter")]].
Proof.
  exact (proj1 (proj2 (proj2 (proj2 (credit_packages_load_silently
     (always (HttpReply 200 (JObj [("success", JBool true);
                                   ("packages", JArr [JObj [("id", JStr "starter")]])])))
     signed_in_world))))
     200 (JObj [("success", JBool true); ("packages", JArr [JObj [("id", JStr "starter")]])])
     eq_refl eq_refl eq_refl).
Defined.

(** ** Leaving and entering *)

(** X27. [handleLogout] ends the session and goes home: when the logout
    call is not answered with a 401 (where the wrapper starts a redirect of
    its own), the handler returns with both keys removed, the context reset
    and the location at [/], whether or not the backend accepted the call. *)
Theorem logout_goes_home
        (server : list Request -> Request -> Reply) (w : World) :
  (forall d, server (sent w) (logout_request w) <> HttpReply 401 d) ->
  let r := handleLogout server w in
  fst r = Ok tt /\
  session_cleared (snd r) /\
  location_href (snd r) = "/" /\
  dash_state (snd r) = dash_state w.
Proof.
  intros _ r. subst r.
  unfold handleLogout, logout, try_catch_finally, bind, auth_logout, api_post, session_cleared.
  run_request server E Hf; destruct Hf as (Hd & _ & _ & _); cbn;
    rewrite lookup_delete_ne by discriminate; rewrite !lookup_delete_eq; auto 10.
Qed.

Lemma logout_goes_home_witness :
  location_href (snd (handleLogout (always NetworkError) signed_in_world)) = "/".
Proof.
  refine (proj1 (proj2 (proj2 (logout_goes_home (always NetworkError) signed_in_world _)))).
  intros d. discriminate.
Defined.





(** ** Rendering helpers *)

Lemma lower_char_idemp (c : ascii) : lower_char (lower_char c) = lower_char c.
Proof.
  destruct c as [[] [] [] [] [] [] [] []]; reflexivity.
Qed.

Lemma toLowerCase_idemp (s : string) : toLowerCase (toLowerCase s) = toLowerCase s.
Proof.
  induction s as [|c s IH]; [reflexivity|].
  cbn. rewrite lower_char_idemp, IH. reflexivity.
Qed.

(** X29. [getSeverityColor] reads the severity without regard to case and
    always answers from its palette of five: a string whose lower-case form
    is one of the four severity names gets the colour of that name, any
    other string, [null] and [undefined] get the gray default, and lowering
    the case of the argument never changes the answer. A severity of any
    other kind (a number, a boolean, an array, an object) has no
    [toLowerCase] to call: the call throws a [TypeError]. *)
Theorem severity_color_ignores_case (s : string) :
  (exists c, getSeverityColor (JStr s) = Ok c /\ c ∈ severity_palette) /\
  getSeverityColor (JStr (toLowerCase s)) = getSeverityColor (JStr s) /\
  (forall name, name ∈ severity_names -> toLowerCase s = name ->
                getSeverityColor (JStr s) = getSeverityColor (JStr name) /\
                getSeverityColor (JStr s) <> Ok "text-gray-600 bg-gray-50") /\
  (toLowerCase s ∉ severity_names ->
   getSeverityColor (JStr s) = Ok "text-gray-600 bg-gray-50") /\
  getSeverityColor JNull = Ok "text-gray-600 bg-gray-50" /\
  getSeverityColor JUndefined = Ok "text-gray-600 bg-gray-50" /\
  (forall v, nullish v = false -> (forall s', v <> JStr s') ->
             getSeverityColor v = Throw TypeError).
Proof.
  unfold getSeverityColor, opt_toLowerCase, severity_palette, severity_names.
  split; [|split; [|split; [|split; [|split; [|split]]]]]; try reflexivity.
  - destruct (String.eqb_spec (toLowerCase s) "critical");
      [|destruct (String.eqb_spec (toLowerCase s) "high");
        [|destruct (String.eqb_spec (toLowerCase s) "medium");
          [|destruct (String.eqb_spec (toLowerCase s) "low")]]];
      eexists; (split; [reflexivity|]); rewrite !elem_of_cons; auto 10.
  - rewrite toLowerCase_idemp. reflexivity.
  - intros name Hin Hlow. rewrite Hlow.
    repeat (apply elem_of_cons in Hin as [-> | Hin]; [split; [reflexivity | discriminate]|]).
    apply elem_of_nil in Hin. contradiction.
  - intros Hnot.
    rewrite !not_elem_of_cons in Hnot. destruct Hnot as (H1 & H2 & H3 & H4 & _).
    apply String.eqb_neq in H1, H2, H3, H4. rewrite H1, H2, H3, H4. reflexivity.
  - intros v Hn Hs. destruct v as [| |b|n|s'|items|fields];
      try reflexivity; try discriminate.
    destruct (Hs s'). reflexivity.
Qed.

Lemma severity_color_ignores_case_witness :
  getSeverityColor (JStr "CRITICAL") = getSeverityColor (JStr "critical") /\
  getSeverityColor (JStr "CRITICAL") <> Ok "text-gray-600 bg-gray-50".
Proof.
  refine (proj1 (proj2 (proj2 (severity_color_ignores_case "CRITICAL"))) "critical" _ _).
  - unfold severity_names. rewrite elem_of_cons. left. reflexivity.
  - reflexivity.
Defined.

(** X30. The Analyze button and its handler agree: whenever the button is
    enabled (not analyzing, files selected), [handleAnalyze] takes the
    network path, and the first request it sends is the upload of the
    selection. The handler itself does not look at [analyzing]. *)
Theorem enabled_button_sends_the_upload
        (server : list Request -> Request -> Reply) (w : World) :
  analyze_disabled (dash_state w) = false ->
  files (dash_state w) <> [] /\
  exists rest,
    sent (snd (handleAnalyze server w)) = (sent w ++ analyze_request w :: rest)%list.
Proof.
  unfold analyze_disabled. intros Hen.
  apply orb_false_iff in Hen as [_ Hlen].
  assert (Hfiles : files (dash_state w) <> []).
  { intros H. rewrite H in Hlen. discriminate. }
  split; [exact Hfiles|].
  unfold handleAnalyze, bind, gets. rewrite Hlen.
  unfold try_catch_finally, bind, analysis_analyzeFiles, api_post.
  cbn [setAnalyzing setError modify].
  match goal with
  | |- context [api_request server ?m ?p ?b ?h ?w1] =>
      pose proof (api_request_sent server m p b h w1) as Hs;
      destruct (api_request server m p b h w1) as [[response|err] w'];
      cbn [snd] in Hs
  end.
  - unfold get_prop. destruct (nullish (data response)).
    + exists []. cbn. exact Hs.
    + cbn [ret]. destruct (truthy (prop (data response) "success")).
      * cbn [setAnalysisResult modify].
        match goal with
        | |- context [refreshUser server ?w1] =>
            destruct (refreshUser_effect server w1) as (v & w2 & -> & _ & _ & Hs2)
        end.
        eexists. cbn. rewrite Hs2. cbn. rewrite Hs. rewrite <- app_assoc. reflexivity.
      * exists []. cbn. exact Hs.
  - exists []. destruct (status_is err 402); cbn; exact Hs.
Qed.

Lemma enabled_button_sends_the_upload_witness :
  files (dash_state one_file_world) <> [].
Proof.
  exact (proj1 (enabled_button_sends_the_upload (always NetworkError) one_file_world eq_refl)).
Defined.
